(** * WiloInvoice: field extraction, encryption helper and record store

    A shallow embedding of [src/core.py], [src/security.py],
    [src/storage.py] and the worker of [src/ui.py]; the properties the
    specification states about them, and further properties of the code.

    Modelling conventions.
    - A Python [str] is a Rocq [string] holding the UTF-8 encoding of the
      text.  Substring search and replacement on well-formed UTF-8 coincide
      with the same operations on code points, so [str.replace], [in] and
      [split] are modelled byte-wise.  The rupee sign is the three bytes
      E2 82 B9, and its mis-decoded form the seven bytes C3 A2 E2 80 9A C2 B9.
    - Character classes ([\d], [\s], [str.strip], [str.lower], [str.upper],
      the [(?i)] flag) are the ones Python uses on the ASCII range; bytes
      above 127 are neither digits nor white space and have no case.
    - A Python [dict] with string keys is a [gmap string string].
    - [float] is IEEE binary64, taken from [SpecFloat]. *)

From Stdlib Require Import ZArith Ascii String List Bool Lia DecimalString.
From Stdlib Require Import Floats.SpecFloat.
From stdpp Require Import base option gmap strings list.

Local Open Scope stdpp_scope.

#[local] Arguments String.append : simpl nomatch.

(** ** Python built-ins on [str] *)

Module Py.

Definition code (c : ascii) : N := N_of_ascii c.

Definition between (lo hi : N) (c : ascii) : bool :=
  (lo <=? code c)%N && (code c <=? hi)%N.

(** [str.isdecimal] on the ASCII range: 0-9. *)
Definition is_digit (c : ascii) : bool := between 48 57 c.

Definition is_upper (c : ascii) : bool := between 65 90 c.

Definition is_lower (c : ascii) : bool := between 97 122 c.

(** White space as [str.strip] and [\s] see it on the ASCII range:
    TAB, LF, VT, FF, CR, FS, GS, RS, US and the space. *)
Definition is_space (c : ascii) : bool :=
  between 9 13 c || between 28 31 c || (code c =? 32)%N.

Definition lower_char (c : ascii) : ascii :=
  if is_upper c then ascii_of_N (code c + 32) else c.

Definition upper_char (c : ascii) : ascii :=
  if is_lower c then ascii_of_N (code c - 32) else c.

Fixpoint map_chars (f : ascii -> ascii) (s : string) : string :=
  match s with
  | EmptyString => EmptyString
  | String c s' => String (f c) (map_chars f s')
  end.

(** [s.lower()] and [s.upper()]. *)
Definition lower : string -> string := map_chars lower_char.
Definition upper : string -> string := map_chars upper_char.

(** [s.startswith(p)]. *)
Fixpoint startswith (p s : string) : bool :=
  match p, s with
  | EmptyString, _ => true
  | String a p', String b s' => Ascii.eqb a b && startswith p' s'
  | String _ _, EmptyString => false
  end.

(** [sub in s]. *)
Fixpoint contains (sub s : string) : bool :=
  startswith sub s ||
  match s with
  | EmptyString => false
  | String _ s' => contains sub s'
  end.

(** [s.replace(old, new)] for a non-empty [old]: the occurrences are taken
    from left to right without overlap.  [skip] counts the characters of an
    occurrence that are still to be passed over. *)
Fixpoint replace_from (old new : string) (skip : nat) (s : string) : string :=
  match s with
  | EmptyString => EmptyString
  | String c s' =>
      match skip with
      | S n => replace_from old new n s'
      | O =>
          if startswith old s
          then new +:+ replace_from old new (String.length old - 1) s'
          else String c (replace_from old new 0 s')
      end
  end.

Definition replace (old new s : string) : string := replace_from old new 0 s.

(** [s.lstrip()], [s.rstrip()] and [s.strip()]. *)
Fixpoint lstrip (s : string) : string :=
  match s with
  | EmptyString => EmptyString
  | String c s' => if is_space c then lstrip s' else s
  end.

Fixpoint rstrip (s : string) : string :=
  match s with
  | EmptyString => EmptyString
  | String c s' =>
      match rstrip s' with
      | EmptyString => if is_space c then EmptyString else String c EmptyString
      | r => String c r
      end
  end.

Definition strip (s : string) : string := rstrip (lstrip s).

(** [s.split(sep)] for a one-character separator; [cur] is the field
    read so far. *)
Fixpoint split_from (sep : ascii) (cur : string) (s : string) : list string :=
  match s with
  | EmptyString => [cur]
  | String c s' =>
      if Ascii.eqb c sep
      then cur :: split_from sep EmptyString s'
      else split_from sep (cur +:+ String c EmptyString) s'
  end.

Definition split (sep : ascii) (s : string) : list string :=
  split_from sep EmptyString s.

(** Truthiness of a [str]: [if s] holds for a non-empty string. *)
Definition truthy (s : string) : bool :=
  match s with EmptyString => false | String _ _ => true end.

Definition LF : ascii := ascii_of_N 10.

(** [has_char i p]: the character [i] occurs in [p]. *)
Fixpoint has_char (i : ascii) (p : string) : bool :=
  match p with
  | EmptyString => false
  | String a p' => Ascii.eqb i a || has_char i p'
  end.

(** [len(s)]: the number of code points, which in well-formed UTF-8 is
    the number of bytes that are not continuation bytes (80-BF). *)
Fixpoint len (s : string) : nat :=
  match s with
  | EmptyString => 0
  | String c s' => if between 128 191 c then len s' else S (len s')
  end.

End Py.


(** ** The fragment of Python's [re] the program uses

    A backtracking matcher: alternatives are tried from left to right,
    [?] and [*] are greedy, and the first way to match wins, as in [sre].
    No pattern of the program can match the empty string, nor can the body
    of any of its [*] or [+]; the empty cases below are there for totality. *)

Module Re.

Inductive re : Type :=
| Eps                          (* the empty pattern *)
| Chr (p : ascii -> bool)      (* one character of a class *)
| Cat (r1 r2 : re)             (* r1 r2 *)
| Alt (r1 r2 : re)             (* r1|r2 *)
| Opt (r : re)                 (* r? *)
| Star (r : re)                (* r* *)
| Grp (n : nat) (r : re).      (* the n-th capturing group *)

(** The groups captured so far, the latest first. *)
Definition caps : Type := list (nat * string).

Fixpoint take (n : nat) (s : string) : string :=
  match n, s with
  | S n', String a s' => String a (take n' s')
  | _, _ => EmptyString
  end.

(** The text read between input [s] and what is left of it, [s']. *)
Definition consumed (s s' : string) : string :=
  take (String.length s - String.length s') s.

Section Exec.

Context {A : Type}.

(** [r*]: one more round of [step] as long as it reads something, else
    the continuation.  [fuel] bounds the rounds by the length of the input. *)
Fixpoint star_loop (step : string -> caps -> (string -> caps -> option A) -> option A)
    (k : string -> caps -> option A) (fuel : nat) (s : string) (c : caps)
    : option A :=
  match fuel with
  | O => k s c
  | S fuel' =>
      match step s c (fun s1 c1 =>
                if String.length s1 <? String.length s
                then star_loop step k fuel' s1 c1 else None) with
      | Some x => Some x
      | None => k s c
      end
  end.

(** [exec r s c k]: match [r] at the start of [s], then go on with [k] on
    the rest; [None] when every way to match has failed. *)
Fixpoint exec (r : re) (s : string) (c : caps)
    (k : string -> caps -> option A) {struct r} : option A :=
  match r with
  | Eps => k s c
  | Chr p =>
      match s with
      | String a s' => if p a then k s' c else None
      | EmptyString => None
      end
  | Cat r1 r2 => exec r1 s c (fun s1 c1 => exec r2 s1 c1 k)
  | Alt r1 r2 =>
      match exec r1 s c k with
      | Some x => Some x
      | None => exec r2 s c k
      end
  | Opt r1 =>
      match exec r1 s c k with
      | Some x => Some x
      | None => k s c
      end
  | Star r1 => star_loop (exec r1) k (String.length s) s c
  | Grp n r1 => exec r1 s c (fun s1 c1 => k s1 ((n, consumed s s1) :: c1))
  end.

End Exec.

(** A match object: the text matched, the groups, and the rest of the input. *)
Record mtch : Type := Match { whole : string; groups : caps; rest : string }.

(** [m.group(n)]; a group that took no part reads as the empty string, as
    in the lists [findall] returns. *)
Definition group (n : nat) (m : mtch) : string :=
  match List.find (fun e => Nat.eqb (fst e) n) (groups m) with
  | Some e => snd e
  | None => EmptyString
  end.

(** [re.match]: a match starting at the first character. *)
Definition match_at (r : re) (s : string) : option mtch :=
  exec r s [] (fun s' c => Some (Match (consumed s s') c s')).

(** [re.search]: the leftmost match. *)
Fixpoint search (r : re) (s : string) : option mtch :=
  match match_at r s with
  | Some m => Some m
  | None =>
      match s with
      | EmptyString => None
      | String _ s' => search r s'
      end
  end.

(** [re.finditer]: the matches from left to right, each search starting
    where the last match ended.  [skip] counts the characters of the last
    match that are still to be passed over. *)
Fixpoint finditer_from (r : re) (skip : nat) (s : string) : list mtch :=
  match skip with
  | S n =>
      match s with
      | EmptyString => []
      | String _ s' => finditer_from r n s'
      end
  | O =>
      match match_at r s with
      | Some m =>
          m :: match s with
               | EmptyString => []
               | String _ s' => finditer_from r (String.length (whole m) - 1) s'
               end
      | None =>
          match s with
          | EmptyString => []
          | String _ s' => finditer_from r 0 s'
          end
      end
  end.

Definition finditer (r : re) (s : string) : list mtch := finditer_from r 0 s.

Fixpoint has_group (r : re) : bool :=
  match r with
  | Eps | Chr _ => false
  | Cat r1 r2 | Alt r1 r2 => has_group r1 || has_group r2
  | Opt r1 | Star r1 => has_group r1
  | Grp _ _ => true
  end.

(** [re.findall] for a pattern with at most one group: the group if there
    is one, else the whole match. *)
Definition findall (r : re) (s : string) : list string :=
  List.map (fun m => if has_group r then group 1 m else whole m) (finditer r s).

(** *** Pattern syntax *)

Definition Lit (c : ascii) : re := Chr (Ascii.eqb c).

(** A literal character under the [(?i)] flag. *)
Definition LitI (c : ascii) : re :=
  Chr (fun x => Ascii.eqb (Py.lower_char x) (Py.lower_char c)).

Fixpoint Str (s : string) : re :=
  match s with
  | EmptyString => Eps
  | String c s' => Cat (Lit c) (Str s')
  end.

Fixpoint StrI (s : string) : re :=
  match s with
  | EmptyString => Eps
  | String c s' => Cat (LitI c) (StrI s')
  end.

(** [r{n}] *)
Fixpoint Times (n : nat) (r : re) : re :=
  match n with
  | O => Eps
  | S n' => Cat r (Times n' r)
  end.

(** [r{0,n}], greedy *)
Fixpoint UpTo (n : nat) (r : re) : re :=
  match n with
  | O => Eps
  | S n' => Opt (Cat r (UpTo n' r))
  end.

(** [r{lo,hi}] *)
Definition Rep (lo hi : nat) (r : re) : re := Cat (Times lo r) (UpTo (hi - lo) r).

(** [r+] *)
Definition Plus (r : re) : re := Cat r (Star r).

(** [\d], [\s] and a class given by its members *)
Definition digit : re := Chr Py.is_digit.
Definition space : re := Chr Py.is_space.
Definition OneOf (members : string) : re := Chr (fun x => Py.has_char x members).
Definition NoneOf (members : string) : re := Chr (fun x => negb (Py.has_char x members)).

End Re.

(** ** Python's [float] on the numerals the program handles *)

Module PyFloat.

Definition prec : Z := 53.
Definition emax : Z := 1024.

Definition float : Type := spec_float.

(** The integer [0], which the program mixes with floats, acts as [0.0]. *)
Definition zero : float := S754_zero false.

Definition add : float -> float -> float := SFadd prec emax.

(** [x > 0] *)
Definition gt_zero (x : float) : bool := SFltb zero x.

Fixpoint all_digits (s : string) : bool :=
  match s with
  | EmptyString => true
  | String c s' => Py.is_digit c && all_digits s'
  end.

(** The value of a run of decimal digits, most significant first. *)
Fixpoint digits_value (acc : N) (s : string) : N :=
  match s with
  | EmptyString => acc
  | String c s' => digits_value (10 * acc + (Py.code c - 48))%N s'
  end.

(** Splitting a numeral at its decimal point. *)
Fixpoint split_point (s : string) : string * option string :=
  match s with
  | EmptyString => (EmptyString, None)
  | String c s' =>
      if Ascii.eqb c "."%char then (EmptyString, Some s')
      else let '(i, f) := split_point s' in (String c i, f)
  end.

(** The binary64 nearest to [n / 10^k], ties to even. *)
Definition of_decimal (n : N) (k : nat) : float :=
  match n with
  | N0 => zero
  | Npos p =>
      let '(mz, ez, lz) := SFdiv_core_binary prec emax (Zpos p) 0 (10 ^ Z.of_nat k) 0 in
      binary_round_aux prec emax false mz ez lz
  end.

(** [float(s)] for an unsigned decimal numeral [s] (digits, with or without
    a decimal point); [None] stands for [ValueError].  [float] accepts more
    (signs, exponents, white space); no such string reaches it here. *)
Definition py_float (s : string) : option float :=
  let '(i, f) := split_point s in
  let f := default EmptyString f in
  if all_digits i && all_digits f && Py.truthy (i +:+ f)
  then Some (of_decimal (digits_value 0 (i +:+ f)) (String.length f))
  else None.

Definition decimal_of_N (n : N) : string :=
  DecimalString.NilZero.string_of_uint (N.to_uint n).

(** [q] hundredths written with two fraction digits. *)
Definition hundredths (q : N) : string :=
  let frac := (q mod 100)%N in
  decimal_of_N (q / 100) +:+ "." +:+
  (if (frac <? 10)%N then "0" else "") +:+ decimal_of_N frac.

(** [m * 2^e * 100] rounded to the nearest integer, ties to even. *)
Definition round_hundredths (m : positive) (e : Z) : N :=
  let n := (Zpos m * 100)%Z in
  match e with
  | Zneg p =>
      let d := Z.pow_pos 2 p in
      let q := (n / d)%Z in
      let r := (n mod d)%Z in
      Z.to_N (match (2 * r ?= d)%Z with
              | Lt => q
              | Gt => q + 1
              | Eq => if Z.even q then q else q + 1
              end)%Z
  | _ => Z.to_N (n * 2 ^ e)%Z
  end.

(** The format [f"{x:.2f}"]. *)
Definition format_2f (x : float) : string :=
  match x with
  | S754_nan => "nan"
  | S754_infinity s => (if s then "-" else "") +:+ "inf"
  | S754_zero s => (if s then "-" else "") +:+ "0.00"
  | S754_finite s m e =>
      (if s then "-" else "") +:+ hundredths (round_hundredths m e)
  end.

End PyFloat.

(** ** [core.py]: the invoice pipeline *)

Module Core.

Import Re.

(** The patterns are quoted with a blank between their tokens.

    [AMOUNT_REGEX]:  (?: INR \s* )? ( \d{1,3} (?: , \d{3} )* \. \d{2} ) *)
Definition AMOUNT_BODY : re :=
  Cat (Rep 1 3 digit)
      (Cat (Star (Cat (Lit ",") (Times 3 digit)))
           (Cat (Lit ".") (Times 2 digit))).

Definition AMOUNT_REGEX : re :=
  Cat (Opt (Cat (Str "INR") (Star space))) (Grp 1 AMOUNT_BODY).

(** The test for decimals in [extract_amount_smart]:  \. \d{2} *)
Definition decimals_pattern : re := Cat (Lit ".") (Times 2 digit).

Definition upper_class : re := Chr Py.is_upper.

(** [gst_pattern]:  \d{2} [A-Z]{5} \d{4} [A-Z]{1} [1-9A-Z]{1} Z [0-9A-Z]{1} *)
Definition gst_pattern : re :=
  Cat (Times 2 digit)
 (Cat (Times 5 upper_class)
 (Cat (Times 4 digit)
 (Cat (Times 1 upper_class)
 (Cat (Times 1 (Chr (fun c => Py.between 49 57 c || Py.is_upper c)))
 (Cat (Lit "Z")
      (Times 1 (Chr (fun c => Py.is_digit c || Py.is_upper c)))))))).

(** The buyer pattern, under the flag (?i):
    ( invoice to | bill to | billed to ) \s* [:.-]? \s* \n+ ( [^\n]+ ) *)
Definition buyer_pattern : re :=
  Cat (Grp 1 (Alt (StrI "invoice to") (Alt (StrI "bill to") (StrI "billed to"))))
 (Cat (Star space)
 (Cat (Opt (OneOf ":.-"))
 (Cat (Star space)
 (Cat (Plus (Lit Py.LF))
      (Grp 2 (Plus (NoneOf (String Py.LF "")))))))).

(** The class of letters, digits, slash and hyphen. *)
Definition number_char (c : ascii) : bool :=
  Py.is_upper c || Py.is_lower c || Py.is_digit c
  || Ascii.eqb c "/" || Ascii.eqb c "-".

(** The invoice number pattern, under the flag (?i):
    ( invoice \s* no | inv \s* # ) \s* [:.]? \s* ( [A-Za-z0-9/-]+ ) *)
Definition invoice_number_pattern : re :=
  Cat (Grp 1 (Alt (Cat (StrI "invoice") (Cat (Star space) (StrI "no")))
                  (Cat (StrI "inv") (Cat (Star space) (Lit "#")))))
 (Cat (Star space)
 (Cat (Opt (OneOf ":."))
 (Cat (Star space)
      (Grp 2 (Plus (Chr number_char)))))).

(** The date pattern:  ( \d{2} [/-] \d{2} [/-] \d{4} ) *)
Definition date_pattern : re :=
  Grp 1 (Cat (Times 2 digit)
        (Cat (OneOf "/-")
        (Cat (Times 2 digit)
        (Cat (OneOf "/-") (Times 4 digit))))).

(** The rupee sign U+20B9 and its mis-decoded form U+00E2 U+201A U+00B9,
    in UTF-8. *)
Definition RUPEE : string :=
  String (ascii_of_N 226) (String (ascii_of_N 130) (String (ascii_of_N 185) "")).

Definition RUPEE_MISDECODED : string :=
  String (ascii_of_N 195) (String (ascii_of_N 162)
 (String (ascii_of_N 226) (String (ascii_of_N 128) (String (ascii_of_N 154)
 (String (ascii_of_N 194) (String (ascii_of_N 185) "")))))).

(** The four replacements of [process_invoice], lines 29-32. *)
Definition normalize_currency (text : string) : string :=
  let text := Py.replace RUPEE "INR " text in
  let text := Py.replace "Rs." "INR " text in
  let text := Py.replace "Rs" "INR " text in
  let text := Py.replace RUPEE_MISDECODED "INR " text in
  text.

(** [[l.strip() for l in text.split('\n') if l.strip()]] *)
Definition split_lines (text : string) : list string :=
  List.map Py.strip
    (List.filter (fun l => Py.truthy (Py.strip l)) (Py.split Py.LF text)).

(** The vendor loop over [lines[:10]]: the first line that is not a
    document-title line. *)
Fixpoint vendor_scan (lines : list string) : option string :=
  match lines with
  | [] => None
  | line :: more =>
      let clean := Py.replace " " "" (Py.upper line) in
      if Py.contains "TAXINVOICE" clean || Py.contains "ORIGINAL" clean
      then vendor_scan more
      else Some line
  end.

(** [matches[-1].replace(",", "")] when [matches] is not empty. *)
Definition last_amount (line : string) : option string :=
  match findall AMOUNT_REGEX line with
  | [] => None
  | m :: ms => Some (Py.replace "," "" (List.last (m :: ms) ""))
  end.

Definition has_keyword (label_keywords : list string) (line : string) : bool :=
  existsb (fun k => Py.contains (Py.lower k) (Py.lower line)) label_keywords.

Definition is_some {X : Type} (o : option X) : bool :=
  match o with Some _ => true | None => false end.

(** The loop of [extract_amount_smart]: [i] is the index of the line at
    the head of [todo], and [lines] the whole list, which [lines[i + 1]]
    reads. *)
Fixpoint amount_loop (lines : list string) (label_keywords : list string)
    (i : nat) (todo : list string) : option string :=
  match todo with
  | [] => None
  | line :: todo' =>
      if negb (has_keyword label_keywords line)
      then amount_loop lines label_keywords (S i) todo'
      else if Py.contains "%" line && negb (is_some (search decimals_pattern line))
      then amount_loop lines label_keywords (S i) todo'
      else
        match last_amount line with
        | Some v => Some v
        | None =>
            match lines !! (i + 1) with
            | Some next_line =>
                if Py.contains "%" next_line
                then amount_loop lines label_keywords (S i) todo'
                else
                  match last_amount next_line with
                  | Some v => Some v
                  | None => amount_loop lines label_keywords (S i) todo'
                  end
            | None => amount_loop lines label_keywords (S i) todo'
            end
        end
  end.

Definition extract_amount_smart (lines : list string)
    (label_keywords : list string) : option string :=
  amount_loop lines label_keywords 0 lines.

(** [if val:] for a value that is a string or [None]. *)
Definition found (val : option string) : option string :=
  match val with
  | Some v => if Py.truthy v then Some v else None
  | None => None
  end.

(** The loop over the grand-total labels: the first label with a value. *)
Fixpoint first_total (lines : list string) (keys : list string) : option string :=
  match keys with
  | [] => None
  | key :: keys' =>
      match found (extract_amount_smart lines [key]) with
      | Some val => Some val
      | None => first_total lines keys'
      end
  end.

Definition total_labels : list string :=
  ["Grand Total"; "TOTAL AMOUNT"; "Amount Payable"; "Invoice Total"].

Definition subtotal_labels : list string := ["Subtotal"; "Sub Total"; "Total"].

(** [float(v) if v else 0] *)
Definition float_or_zero (v : option string) : option PyFloat.float :=
  match found v with
  | Some s => PyFloat.py_float s
  | None => Some PyFloat.zero
  end.

(** The body of the [try] block, lines 148-156, given [data['cgst']] and
    [data['sgst']]: the new grand total if one is set, [Some None] if none
    is set, and [None] for an exception. *)
Definition fallback_total (lines : list string) (cgst sgst : string)
    : option (option string) :=
  subtotal ← float_or_zero (extract_amount_smart lines subtotal_labels);
  cgst_val ← float_or_zero (Some cgst);
  sgst_val ← float_or_zero (Some sgst);
  let computed := PyFloat.add (PyFloat.add subtotal cgst_val) sgst_val in
  Some (if PyFloat.gt_zero computed then Some (PyFloat.format_2f computed) else None).

(** [if val: data[key] = val], for a value that is [None] or a [str]. *)
Definition assign (key : string) (val : option string)
    (data : gmap string string) : gmap string string :=
  match found val with
  | Some v => <[key := v]> data
  | None => data
  end.

(** [data[key] = m.group(n)] under [if m:], for a match object. *)
Definition assign_match (key : string) (m : option mtch) (value : mtch -> string)
    (data : gmap string string) : gmap string string :=
  match m with
  | Some m => <[key := value m]> data
  | None => data
  end.

Definition defaults : gmap string string :=
  <["invoice_number" := "N/A"]>
 (<["invoice_date" := "N/A"]>
 (<["vendor_name" := "Unknown"]>
 (<["vendor_gstin" := "N/A"]>
 (<["buyer_name" := "Unknown"]>
 (<["cgst" := "0.00"]>
 (<["sgst" := "0.00"]>
 (<["grand_total" := "0.00"]>
 (<["currency" := "INR"]> ∅)))))))).

(** The vendor loop leaves with [break] at the first line it keeps. *)
Definition set_vendor (lines : list string) (data : gmap string string)
    : gmap string string :=
  match vendor_scan (firstn 10 lines) with
  | Some line => <["vendor_name" := line]> data
  | None => data
  end.

(** [if all_gst: data['vendor_gstin'] = all_gst[0]] *)
Definition set_gstin (all_gst : list string) (data : gmap string string)
    : gmap string string :=
  match all_gst with
  | first :: _ => <["vendor_gstin" := first]> data
  | [] => data
  end.

(** The loop over the labels of the total, with its [break]. *)
Definition set_total (lines : list string) (data : gmap string string)
    : gmap string string :=
  match first_total lines total_labels with
  | Some val => <["grand_total" := val]> data
  | None => data
  end.

(** Lines 146-158: the fallback; an exception in the [try] block leaves
    [data] as it is. *)
Definition set_fallback (lines : list string) (data : gmap string string)
    : gmap string string :=
  if String.eqb (data !!! "grand_total") "0.00"
  then match fallback_total lines (data !!! "cgst") (data !!! "sgst") with
       | Some (Some total) => <["grand_total" := total]> data
       | Some None => data
       | None => data
       end
  else data.

Definition _parse_deep_fields (text : string) : gmap string string :=
  let data := defaults in
  let lines := split_lines text in
  (* 1. Vendor *)
  let data := set_vendor lines data in
  let all_gst := findall gst_pattern text in
  let data := set_gstin all_gst data in
  (* 2. Buyer *)
  let buyer_match := search buyer_pattern text in
  let data := assign_match "buyer_name" buyer_match (fun m => Py.strip (group 2 m)) data in
  (* 3. Invoice meta *)
  let inv_match := search invoice_number_pattern text in
  let data := assign_match "invoice_number" inv_match (group 2) data in
  let date_match := search date_pattern text in
  let data := assign_match "invoice_date" date_match (group 1) data in
  (* Taxes *)
  let cgst := extract_amount_smart lines ["CGST"] in
  let data := assign "cgst" cgst data in
  let sgst := extract_amount_smart lines ["SGST"] in
  let data := assign "sgst" sgst data in
  let data := set_total lines data in
  let data := set_fallback lines data in
  (* UI compatibility *)
  <["vendor" := data !!! "vendor_name"]> data.

(** [{"status": "Error", "error": "Empty File"}] *)
Definition empty_file_error : gmap string string :=
  <["status" := "Error"]> (<["error" := "Empty File"]> ∅).

(** [process_invoice], given the text [_extract_content] recovered from
    the file. *)
Definition process_invoice (text : string) : gmap string string :=
  if negb (Py.truthy text)
  then empty_file_error
  else _parse_deep_fields (normalize_currency text).

(** The loop over [pdf.pages] in [_extract_content], lines 40-43:
    [pages] holds what [page.extract_text(layout=True)] gives for each
    page, the empty string standing for a page without a text layer. *)
Definition text_layer (pages : list string) : string :=
  fold_left
    (fun full_text text =>
       if Py.truthy text then full_text +:+ (text +:+ String Py.LF "")
       else full_text)
    pages "".

(** The loop over the page images, lines 48-54: [ocr] holds what
    [pytesseract.image_to_string] read from the images, one after the
    other, up to the first exception if one is raised; the [except] clause
    drops the exception and keeps what was appended before it. *)
Definition ocr_layer (full_text : string) (ocr : list string) : string :=
  fold_left (fun full_text text => full_text +:+ (text +:+ String Py.LF "")) ocr full_text.

(** [_extract_content(path)['text']] for a file that [pdfplumber] opens. *)
Definition _extract_content (pages ocr : list string) : string :=
  let full_text := text_layer pages in
  if Py.len full_text <? 50 then ocr_layer full_text ocr else full_text.

(** [process_invoice(file_path)], the extraction included. *)
Definition process_invoice_file (pages ocr : list string) : gmap string string :=
  process_invoice (_extract_content pages ocr).

End Core.

(** ** [security.py]: the encryption helper *)

Module Security.

(** A Python [bytes] value. *)
Definition bytes : Type := string.

(** [str.encode()]: the UTF-8 bytes, which the [str] already holds. *)
Definition encode (s : string) : bytes := s.

Definition cont (c : ascii) : bool := Py.between 128 191 c.

(** Well-formed UTF-8, as the decoder checks it: no overlong form, no
    surrogate, nothing above U+10FFFF. *)
Fixpoint utf8_valid_from (fuel : nat) (b : bytes) : bool :=
  match fuel with
  | O => false
  | S fuel' =>
      match b with
      | EmptyString => true
      | String c0 r0 =>
          if Py.between 0 127 c0 then utf8_valid_from fuel' r0
          else
            match r0 with
            | EmptyString => false
            | String c1 r1 =>
                if Py.between 194 223 c0 then cont c1 && utf8_valid_from fuel' r1
                else
                  match r1 with
                  | EmptyString => false
                  | String c2 r2 =>
                      let lead3 :=
                        (Py.between 224 224 c0 && Py.between 160 191 c1)
                        || (Py.between 225 236 c0 && cont c1)
                        || (Py.between 237 237 c0 && Py.between 128 159 c1)
                        || (Py.between 238 239 c0 && cont c1) in
                      if Py.between 224 239 c0
                      then lead3 && cont c2 && utf8_valid_from fuel' r2
                      else
                        match r2 with
                        | EmptyString => false
                        | String c3 r3 =>
                            let lead4 :=
                              (Py.between 240 240 c0 && Py.between 144 191 c1)
                              || (Py.between 241 243 c0 && cont c1)
                              || (Py.between 244 244 c0 && Py.between 128 143 c1) in
                            lead4 && cont c2 && cont c3 && utf8_valid_from fuel' r3
                        end
                  end
            end
      end
  end.

Definition utf8_valid (b : bytes) : bool := utf8_valid_from (S (String.length b)) b.

(** [bytes.decode()]; [None] stands for [UnicodeDecodeError]. *)
Definition decode (b : bytes) : option string :=
  if utf8_valid b then Some b else None.

(** The [Fernet] object of the [cryptography] package, by its contract:
    [encrypt] draws a fresh IV and the time ([entropy]) and builds a token,
    [decrypt] gives the data back or raises [InvalidToken] ([None]); a
    token is never empty, so the empty input is rejected. *)
Record fernet : Type := Fernet {
  entropy : Type;
  encrypt : entropy -> bytes -> bytes;
  decrypt : bytes -> option bytes;
  decrypt_encrypt : forall e d, decrypt (encrypt e d) = Some d;
  decrypt_empty : decrypt EmptyString = None
}.

(** The calls made on the cipher. *)
Inductive cipher_call : Type :=
| CallEncrypt (data : bytes)
| CallDecrypt (token : bytes).

Definition DECRYPTION_FAILED : string := "[DECRYPTION_FAILED]".

(** [SecurityManager.encrypt_data]: the result and the cipher calls made. *)
Definition encrypt_data (F : fernet) (e : entropy F) (data : string)
    : bytes * list cipher_call :=
  if negb (Py.truthy data) then (EmptyString, [])
  else (encrypt F e (encode data), [CallEncrypt (encode data)]).

(** [SecurityManager.decrypt_data]: any exception of [decrypt] or
    [decode] gives the sentinel. *)
Definition decrypt_data (F : fernet) (token : bytes) : string * list cipher_call :=
  if negb (Py.truthy token) then (EmptyString, [])
  else
    (match decrypt F token ≫= decode with
     | Some s => s
     | None => DECRYPTION_FAILED
     end, [CallDecrypt token]).

(** [b[n:]] *)
Fixpoint drop (n : nat) (b : bytes) : bytes :=
  match n, b with
  | O, _ => b
  | S n', String _ b' => drop n' b'
  | S _, EmptyString => EmptyString
  end.

Section FileHash.

(** The hash object of [hashlib.sha256()]: its initial state, [update]
    and [hexdigest]. *)
Variable sha256 : Type.
Variable sha256_new : sha256.
Variable update : sha256 -> bytes -> sha256.
Variable hexdigest : sha256 -> string.

(** [while chunk := f.read(size): sha256.update(chunk)], on the bytes
    [f] that are still to be read; a turn of the loop reads at least one
    byte, so [fuel] bounds the turns by the length of the file. *)
Fixpoint read_loop (size fuel : nat) (f : bytes) (h : sha256) : sha256 :=
  match fuel with
  | O => h
  | S fuel' =>
      let chunk := Re.take size f in
      if Py.truthy chunk
      then read_loop size fuel' (drop size f) (update h chunk)
      else h
  end.

Definition CHUNK : nat := N.to_nat 8192.

(** [SecurityManager.get_file_hash], given the content of the file. *)
Definition get_file_hash (content : bytes) : string :=
  hexdigest (read_loop CHUNK (String.length content) content sha256_new).

End FileHash.

(** [SecurityManager.sanitize_input] on a [str]. *)
Definition sanitize_input (text : string) : string :=
  if Py.truthy text
     && existsb (fun prefix => Py.startswith prefix text) ["="; "+"; "-"; "@"]
  then "'" +:+ text
  else text.

End Security.

(** ** [storage.py]: the record store *)

Module Storage.

(** A row of the table [invoices]. *)
Record row : Type := Row {
  id : nat;
  file_hash : string;
  filename : string;
  upload_date : string;
  invoice_number : string;
  invoice_date : string;
  vendor_name : string;
  vendor_gstin : string;
  buyer_name : string;
  cgst : string;
  sgst : string;
  grand_total : string;
  currency : string;
  json_data_enc : Security.bytes;
  status : string
}.

(** The table in insertion order, and the last [AUTOINCREMENT] id. *)
Record db : Type := Db { rows : list row; last_id : nat }.

Definition empty_db : db := Db [] 0.

(** The [UNIQUE] constraint on [file_hash]. *)
Definition hash_present (h : string) (d : db) : bool :=
  existsb (fun r => String.eqb (file_hash r) h) (rows d).

Section SaveInvoice.

(** [json.dumps], the cipher of the [SecurityManager], the IV and time
    its [encrypt] draws, and the reading of the clock,
    [datetime.now().strftime("%Y-%m-%d %H:%M")]. *)
Variable json_dumps : gmap string string -> string.
Variable F : Security.fernet.

(** [data.get(key, dflt)] *)
Definition get (data : gmap string string) (key dflt : string) : string :=
  default dflt (data !! key).

(** [save_invoice]: [True] and the table with the new row, or [False]
    and the table as it was when [sqlite3.IntegrityError] is raised. *)
Definition save_invoice (e : Security.entropy F) (now : string) (d : db)
    (filename file_hash : string) (data : gmap string string) : bool * db :=
  let json_enc := fst (Security.encrypt_data F e (json_dumps data)) in
  if hash_present file_hash d then (false, d)
  else
    let r :=
      {| id := S (last_id d);
         file_hash := file_hash;
         filename := filename;
         upload_date := now;
         invoice_number := get data "invoice_number" "N/A";
         invoice_date := get data "invoice_date" "N/A";
         vendor_name := get data "vendor_name" "Unknown";
         vendor_gstin := get data "vendor_gstin" "N/A";
         buyer_name := get data "buyer_name" "Unknown";
         cgst := get data "cgst" "0";
         sgst := get data "sgst" "0";
         grand_total := get data "grand_total" "0";
         currency := get data "currency" "INR";
         json_data_enc := json_enc;
         status := "PROCESSED" |} in
    (true, Db (rows d ++ [r]) (S (last_id d))).

End SaveInvoice.

(** The column names of the [SELECT] in [export_to_csv]. *)
Definition export_columns : list string :=
  ["Filename"; "Invoice No"; "Invoice Date"; "Vendor Name"; "Vendor GSTIN";
   "Buyer Name"; "CGST"; "SGST"; "Grand Total"; "Currency"; "Status";
   "Processed On"].

Definition export_row (r : row) : list string :=
  [filename r; invoice_number r; invoice_date r; vendor_name r; vendor_gstin r;
   buyer_name r; cgst r; sgst r; grand_total r; currency r; status r;
   upload_date r].

(** The data frame [pd.read_sql_query] builds: the column names and the
    rows, in the order of the table. *)
Definition frame : Type := list string * list (list string).

Definition read_sql_query (d : db) : frame :=
  (export_columns, List.map export_row (rows d)).

(** [export_to_csv]: the number it returns, and the frame [df.to_csv]
    writes to [output_path] ([None]: no file is written). *)
Definition export_to_csv (d : db) : nat * option frame :=
  let df := read_sql_query d in
  match snd df with
  | [] => (0, None)
  | _ :: _ => (List.length (snd df), Some df)
  end.

End Storage.

(** ** [ui.py]: the worker thread *)

Module Ui.

Section Worker.

(** [os.path.basename], [json.dumps], the cipher and the hash object. *)
Variable basename : string -> string.
Variable json_dumps : gmap string string -> string.
Variable F : Security.fernet.
Variable sha256 : Type.
Variable sha256_new : sha256.
Variable update : sha256 -> Security.bytes -> sha256.
Variable hexdigest : sha256 -> string.

(** What the worker meets for one path of [self.files]: the bytes [open]
    and [read] give ([None]: they raise), the text of the pages
    ([None]: [pdfplumber.open] raises), what the OCR reads, the IV and time
    the cipher draws, and the reading of the clock. *)
Record document : Type := Document {
  path : string;
  content : option Security.bytes;
  pages : option (list string);
  ocr : list string;
  iv : Security.entropy F;
  now : string
}.

(** The arguments of [self.progress.emit]: file name, vendor, status. *)
Definition signal : Type := (string * string * string)%type.

(** One turn of the loop of [Worker.run], lines 111-122. *)
Definition run_file (d : Storage.db) (doc : document) : Storage.db * signal :=
  let failed := (d, (basename (path doc), "N/A", "Error")) in
  let fname := basename (path doc) in
  match content doc with
  | None => failed
  | Some bytes =>
      let fhash := Security.get_file_hash sha256 sha256_new update hexdigest bytes in
      match pages doc with
      | None => failed
      | Some texts =>
          let data := Core.process_invoice_file texts (ocr doc) in
          let '(saved, d') :=
            Storage.save_invoice json_dumps F (iv doc) (now doc) d fname fhash data in
          let status := if saved then "Processed" else "Duplicate" in
          let vendor := Storage.get data "vendor_name" "Unknown" in
          (d', (fname, vendor, status))
      end
  end.

(** [Worker.run]: the table after the batch and the signals emitted, in
    order. *)
Fixpoint run (d : Storage.db) (files : list document) : Storage.db * list signal :=
  match files with
  | [] => (d, [])
  | doc :: files' =>
      let '(d', s) := run_file d doc in
      let '(d'', ss) := run d' files' in
      (d'', s :: ss)
  end.

End Worker.

End Ui.

(** * Properties *)

(** ** Facts on [startswith], [contains] and [replace] *)

Section StringFacts.

Import Py.

Lemma app_empty_r (s : string) : s +:+ "" = s.
Proof. induction s as [|c s IH]; simpl; [reflexivity | now rewrite IH]. Qed.

Lemma app_assoc_s (a b c : string) : (a +:+ b) +:+ c = a +:+ (b +:+ c).
Proof. induction a as [|x a IH]; simpl; [reflexivity | now rewrite IH]. Qed.

Lemma length_app_s (a b : string) :
  String.length (a +:+ b) = String.length a + String.length b.
Proof. induction a as [|x a IH]; simpl; [reflexivity | now rewrite IH]. Qed.

Lemma startswith_app (p s : string) : startswith p (p +:+ s) = true.
Proof.
  induction p as [|a p IH]; simpl; [reflexivity |].
  now rewrite Ascii.eqb_refl, IH.
Qed.

Lemma startswith_split (p s : string) :
  startswith p s = true -> exists r, s = p +:+ r.
Proof.
  revert s; induction p as [|a p IH]; intros s H; simpl in *.
  - now exists s.
  - destruct s as [|b s]; [discriminate |].
    apply andb_prop in H as [Hab Hps].
    apply Ascii.eqb_eq in Hab as ->.
    destruct (IH _ Hps) as [r ->]. now exists r.
Qed.

Lemma startswith_nil_false (a : ascii) (p : string) :
  startswith (String a p) "" = false.
Proof. reflexivity. Qed.

Lemma contains_app_r (p x s : string) :
  contains p s = true -> contains p (x +:+ s) = true.
Proof.
  intros H; induction x as [|c x IH]; simpl; [exact H |].
  rewrite IH. apply orb_true_r.
Qed.

(** Passing over an occurrence: [skip] characters are dropped. *)
Lemma replace_from_skip (old new x s : string) :
  replace_from old new (String.length x) (x +:+ s) = replace old new s.
Proof.
  induction x as [|c x IH]; simpl; [| exact IH].
  unfold replace. now destruct s.
Qed.

Lemma replace_hit (old new r : string) (a : ascii) :
  replace (String a old) new (String a old +:+ r)
  = new +:+ replace (String a old) new r.
Proof.
  unfold replace at 1. cbn [String.append replace_from].
  change (String a (old +:+ r)) with (String a old +:+ r).
  rewrite startswith_app.
  replace (String.length (String a old) - 1) with (String.length old)
    by (simpl; lia).
  now rewrite replace_from_skip.
Qed.

Lemma replace_miss (old new s : string) (c : ascii) :
  startswith old (String c s) = false ->
  replace old new (String c s) = String c (replace old new s).
Proof. intros H. unfold replace. cbn [replace_from]. now rewrite H. Qed.

(** A text without occurrence of [old] is left as it is. *)
Lemma replace_absent (old new s : string) :
  contains old s = false -> replace old new s = s.
Proof.
  induction s as [|c s IH]; intros H; [reflexivity |].
  cbn [contains] in H. apply orb_false_elim in H as [H1 H2].
  rewrite replace_miss by exact H1. now rewrite IH.
Qed.

(** [clash p nu]: [p] and [nu] agree as far as both go, so that [p] could
    start where [nu] starts. *)
Fixpoint clash (p nu : string) : bool :=
  match p, nu with
  | String a p', String b nu' => Ascii.eqb a b && clash p' nu'
  | _, _ => true
  end.

(** The non-empty suffixes of a string. *)
Fixpoint suffixes (s : string) : list string :=
  match s with
  | EmptyString => []
  | String _ s' => s :: suffixes s'
  end.

(** [fresh_for p new]: inserting [new] into a text cannot complete an
    occurrence of [p]: the first character of [new] is not in [p], and [p]
    cannot start inside [new]. *)
Definition fresh_for (p new : string) : bool :=
  match new with
  | EmptyString => false
  | String i _ =>
      negb (has_char i p) && forallb (fun nu => negb (clash p nu)) (suffixes new)
  end.

Lemma startswith_clash (p nu t : string) :
  startswith p (nu +:+ t) = true -> clash p nu = true.
Proof.
  revert nu; induction p as [|a p IH]; intros [|b nu] H; try reflexivity.
  simpl in *. apply andb_prop in H as [-> H]. simpl. eauto.
Qed.

Lemma contains_app_inv (p x t : string) :
  contains p (x +:+ t) = true ->
  existsb (fun nu => startswith p (nu +:+ t)) (suffixes x) = true
  \/ contains p t = true.
Proof.
  induction x as [|c x IH]; intros H; [now right |].
  cbn [String.append contains] in H. apply orb_prop in H as [H | H].
  - left. cbn [suffixes existsb]. cbn [String.append]. now rewrite H.
  - destruct (IH H) as [E | E]; [left | now right].
    cbn [suffixes existsb]. rewrite E. apply orb_true_r.
Qed.

Lemma fresh_no_start (p new t : string) :
  fresh_for p new = true ->
  existsb (fun nu => startswith p (nu +:+ t)) (suffixes new) = false.
Proof.
  unfold fresh_for. destruct new as [|i new']; [discriminate |].
  intros H. apply andb_prop in H as [_ H].
  rewrite forallb_forall in H.
  apply not_true_is_false. intros E. apply existsb_exists in E as (nu & Hin & Hs).
  specialize (H nu Hin). apply startswith_clash in Hs. now rewrite Hs in H.
Qed.

(** What the output of [replace] starts with, the input started with,
    as long as the first character of [new] is not involved. *)
Lemma startswith_replace (old new q s : string) (a i : ascii) :
  has_char i q = false ->
  startswith q (replace (String a old) (String i new) s) = true ->
  startswith q s = true.
Proof.
  revert s; induction q as [|b q IH]; intros s Hi H; [reflexivity |].
  cbn [has_char] in Hi. apply orb_false_elim in Hi as [Hib Hiq].
  destruct s as [|c s]; [discriminate H |].
  destruct (startswith (String a old) (String c s)) eqn:E.
  - apply startswith_split in E as [r E]. rewrite E in H.
    rewrite replace_hit in H. cbn [String.append startswith] in H.
    apply andb_prop in H as [H _]. rewrite Ascii.eqb_sym in H. congruence.
  - rewrite replace_miss in H by exact E. cbn [startswith] in *.
    apply andb_prop in H as [-> H]. simpl. eauto.
Qed.

Lemma length_split_lt (a : ascii) (old r : string) :
  String.length r < String.length (String a old +:+ r).
Proof. rewrite length_app_s. simpl. lia. Qed.

(** Replacing [old] by [new] creates no occurrence of a pattern that is
    fresh for [new]. *)
Lemma contains_replace (old new p s : string) (a : ascii) :
  fresh_for p new = true ->
  contains p (replace (String a old) new s) = true ->
  contains p s = true.
Proof.
  intros F. induction s as [s IH] using (induction_ltof1 _ String.length).
  unfold ltof in IH. intros H. destruct s as [|c s]; [exact H |].
  destruct (startswith (String a old) (String c s)) eqn:E.
  - apply startswith_split in E as [r E]. rewrite E in *.
    rewrite replace_hit in H. apply contains_app_inv in H as [H | H].
    + now rewrite fresh_no_start in H.
    + apply contains_app_r, IH; [apply length_split_lt | exact H].
  - rewrite replace_miss in H by exact E. cbn [contains] in *.
    apply orb_prop in H as [H | H].
    + destruct p as [|b p]; [reflexivity |]. cbn [startswith] in *.
      apply andb_prop in H as [-> H]. simpl.
      destruct new as [|i new]; [discriminate F |].
      unfold fresh_for in F. apply andb_prop in F as [F _].
      apply negb_true_iff in F. cbn [has_char] in F.
      apply orb_false_elim in F as [_ F].
      now rewrite (startswith_replace _ _ _ _ _ _ F H).
    + rewrite (IH s); [apply orb_true_r | simpl; lia | exact H].
Qed.

(** After the replacement no occurrence of [old] is left, when [old] is
    fresh for [new]. *)
Lemma replace_clears (old new s : string) (a : ascii) :
  fresh_for (String a old) new = true ->
  contains (String a old) (replace (String a old) new s) = false.
Proof.
  intros F. induction s as [s IH] using (induction_ltof1 _ String.length).
  unfold ltof in IH. destruct s as [|c s]; [reflexivity |].
  destruct (startswith (String a old) (String c s)) eqn:E.
  - apply startswith_split in E as [r E]. rewrite E in *.
    rewrite replace_hit. apply not_true_is_false. intros H.
    apply contains_app_inv in H as [H | H].
    + now rewrite fresh_no_start in H.
    + rewrite IH in H; [discriminate | apply length_split_lt].
  - rewrite replace_miss by exact E. cbn [contains].
    rewrite (IH s) by (simpl; lia). rewrite orb_false_r.
    apply not_true_is_false. intros H. cbn [startswith] in H.
    apply andb_prop in H as [Hac H].
    destruct new as [|i new]; [discriminate F |].
    unfold fresh_for in F. apply andb_prop in F as [F _].
    apply negb_true_iff in F. cbn [has_char] in F.
    apply orb_false_elim in F as [_ F].
    apply (startswith_replace _ _ _ _ _ _ F) in H.
    cbn [startswith] in E. now rewrite Hac, H in E.
Qed.

End StringFacts.

(** ** The text normalizer *)

Section Normalizer.

Import Py Core.

Lemma replace_keeps_absent (old new p s : string) (a : ascii) :
  fresh_for p new = true ->
  contains p s = false ->
  contains p (replace (String a old) new s) = false.
Proof.
  intros F H. apply not_true_is_false. intros E.
  apply (contains_replace _ _ _ _ _ F) in E. congruence.
Qed.

(** The four currency spellings [process_invoice] rewrites. *)
Definition currency_spellings : list string :=
  [RUPEE; "Rs."; "Rs"; RUPEE_MISDECODED].

Lemma spellings_fresh :
  forallb (fun p => fresh_for p "INR ") currency_spellings = true.
Proof. vm_compute. reflexivity. Qed.

(** Normalized text holds none of the four spellings. *)
Lemma normalize_currency_clean (text p : string) :
  In p currency_spellings -> contains p (normalize_currency text) = false.
Proof.
  pose proof spellings_fresh as F. cbn [forallb currency_spellings] in F.
  repeat (apply andb_prop in F as [? F]).
  unfold normalize_currency, currency_spellings, RUPEE, RUPEE_MISDECODED in *.
  intros [<- | [<- | [<- | [<- | []]]]].
  - do 3 (apply replace_keeps_absent; [assumption |]).
    now apply replace_clears.
  - do 2 (apply replace_keeps_absent; [assumption |]).
    now apply replace_clears.
  - apply replace_keeps_absent; [assumption |].
    now apply replace_clears.
  - now apply replace_clears.
Qed.

End Normalizer.

(** ** The matcher against the declarative reading of a pattern *)

Section RegexFacts.

Import Py Re.

(** [matches r s c s' c']: [r] can read a prefix of [s], leaving [s'], and
    takes the groups from [c] to [c'].  A round of [r*] reads at least one
    character. *)
Inductive matches : re -> string -> caps -> string -> caps -> Prop :=
| M_eps s c : matches Eps s c s c
| M_chr p a s c : p a = true -> matches (Chr p) (String a s) c s c
| M_cat r1 r2 s c s1 c1 s2 c2 :
    matches r1 s c s1 c1 -> matches r2 s1 c1 s2 c2 ->
    matches (Cat r1 r2) s c s2 c2
| M_alt_l r1 r2 s c s' c' : matches r1 s c s' c' -> matches (Alt r1 r2) s c s' c'
| M_alt_r r1 r2 s c s' c' : matches r2 s c s' c' -> matches (Alt r1 r2) s c s' c'
| M_opt_some r s c s' c' : matches r s c s' c' -> matches (Opt r) s c s' c'
| M_opt_none r s c : matches (Opt r) s c s c
| M_star_stop r s c : matches (Star r) s c s c
| M_star_step r s c s1 c1 s2 c2 :
    matches r s c s1 c1 -> String.length s1 < String.length s ->
    matches (Star r) s1 c1 s2 c2 -> matches (Star r) s c s2 c2
| M_grp n r s c s' c' :
    matches r s c s' c' -> matches (Grp n r) s c s' ((n, consumed s s') :: c').

Context {A : Type}.
Implicit Types (k : string -> caps -> option A).

Lemma star_loop_sound (r : re) k :
  (forall s c k x, exec r s c k = Some x ->
     exists s' c', matches r s c s' c' /\ k s' c' = Some x) ->
  forall fuel s c x, star_loop (exec r) k fuel s c = Some x ->
    exists s' c', matches (Star r) s c s' c' /\ k s' c' = Some x.
Proof.
  intros IHr fuel; induction fuel as [|fuel IH]; intros s c x H; simpl in H.
  - exists s, c. split; [apply M_star_stop | exact H].
  - destruct (exec r s c _) as [y|] eqn:E.
    + apply IHr in E as (s1 & c1 & M1 & K1).
      destruct (String.length s1 <? String.length s) eqn:L; [| discriminate].
      apply Nat.ltb_lt in L. injection H as ->.
      apply IH in K1 as (s2 & c2 & M2 & K2).
      exists s2, c2. split; [eapply M_star_step; eassumption | exact K2].
    + exists s, c. split; [apply M_star_stop | exact H].
Qed.

(** Soundness: a result of the matcher comes from a match of the pattern. *)
Lemma exec_sound (r : re) : forall s c k x,
  exec r s c k = Some x ->
  exists s' c', matches r s c s' c' /\ k s' c' = Some x.
Proof.
  induction r as [|p|r1 IH1 r2 IH2|r1 IH1 r2 IH2|r IH|r IH|n r IH];
    intros s c k x H; cbn [exec] in H.
  - exists s, c. split; [constructor | exact H].
  - destruct s as [|a s]; [discriminate |].
    destruct (p a) eqn:P; [| discriminate].
    exists s, c. split; [now constructor | exact H].
  - apply IH1 in H as (s1 & c1 & M1 & H).
    apply IH2 in H as (s2 & c2 & M2 & H).
    exists s2, c2. split; [econstructor; eassumption | exact H].
  - destruct (exec r1 s c k) as [y|] eqn:E.
    + injection H as ->. apply IH1 in E as (s' & c' & M & K).
      exists s', c'. split; [now apply M_alt_l | exact K].
    + apply IH2 in H as (s' & c' & M & K).
      exists s', c'. split; [now apply M_alt_r | exact K].
  - destruct (exec r s c k) as [y|] eqn:E.
    + injection H as ->. apply IH in E as (s' & c' & M & K).
      exists s', c'. split; [now apply M_opt_some | exact K].
    + exists s, c. split; [apply M_opt_none | exact H].
  - eapply star_loop_sound; eassumption.
  - apply IH in H as (s' & c' & M & K).
    exists s', ((n, consumed s s') :: c'). split; [now constructor | exact K].
Qed.

Lemma matches_length (r : re) s c s' c' :
  matches r s c s' c' -> String.length s' <= String.length s.
Proof. induction 1; simpl in *; lia. Qed.



End RegexFacts.

(** ** [match], [search] and [finditer] *)

Section MatchFacts.

Import Py Re.

Lemma take_app (w s : string) : take (String.length w) (w +:+ s) = w.
Proof. induction w as [|a w IH]; simpl; [now destruct s | now rewrite IH]. Qed.

Lemma consumed_app (w s : string) : consumed (w +:+ s) s = w.
Proof.
  unfold consumed. rewrite length_app_s.
  replace (String.length w + String.length s - String.length s)
    with (String.length w) by lia.
  apply take_app.
Qed.


Lemma matches_split (r : re) s c s' c' :
  matches r s c s' c' -> exists w, s = w +:+ s'.
Proof.
  induction 1 as [s c|p a s c P|r1 r2 s c s1 c1 s2 c2 _ [w1 ->] _ [w2 ->]
                 | | | | | |r s c s1 c1 s2 c2 _ [w1 ->] _ _ [w2 ->]|];
    try assumption; try (now exists "").
  - now exists (String a "").
  - exists (w1 +:+ w2). now rewrite app_assoc_s.
  - exists (w1 +:+ w2). now rewrite app_assoc_s.
Qed.

Lemma match_at_sound (r : re) (s : string) (m : mtch) :
  match_at r s = Some m ->
  s = whole m +:+ rest m /\ matches r s [] (rest m) (groups m).
Proof.
  unfold match_at. intros H.
  apply exec_sound in H as (s' & c' & M & E). injection E as <-.
  cbn [whole rest groups]. split; [| exact M].
  destruct (matches_split _ _ _ _ _ M) as [w ->]. now rewrite consumed_app.
Qed.







(** [search] finds a match at some offset, and none at a smaller one. *)
Lemma search_some (r : re) (text : string) (m : mtch) :
  search r text = Some m ->
  exists pre, text = pre +:+ whole m +:+ rest m
    /\ match_at r (whole m +:+ rest m) = Some m
    /\ forall pre1 t, text = pre1 +:+ t ->
         String.length pre1 < String.length pre -> match_at r t = None.
Proof.
  induction text as [|a text IH]; cbn [search]; intros H.
  - destruct (match_at r "") as [m'|] eqn:E; [| discriminate].
    injection H as ->. exists "". destruct (match_at_sound _ _ _ E) as [<- _].
    repeat split; [exact E |]. simpl. lia.
  - destruct (match_at r (String a text)) as [m'|] eqn:E.
    + injection H as ->. exists "". destruct (match_at_sound _ _ _ E) as [<- _].
      repeat split; [exact E |]. simpl. lia.
    + destruct (IH H) as (pre & -> & Hm & Hmin). exists (String a pre).
      repeat split; [exact Hm |].
      intros [|b pre1] t Ht L; simpl in Ht.
      * now subst t.
      * injection Ht as -> Ht. apply (Hmin pre1 t Ht). simpl in L. lia.
Qed.


End MatchFacts.

(** ** The label-proximity amount search *)

Section AmountSearch.

Import Py Re Core.

(** The search as the specification words it (section 4.3): the lines are
    read in order; a line with a keyword is skipped when it has a percent
    sign and no two decimals; otherwise its rightmost amount is the value;
    when it has no amount, the line that follows is read in the same way,
    unless that line has a percent sign. *)
Fixpoint label_proximity_search (label_keywords : list string)
    (lines : list string) : option string :=
  match lines with
  | [] => None
  | line :: following =>
      let continue := label_proximity_search label_keywords following in
      if has_keyword label_keywords line then
        if contains "%" line && negb (is_some (search decimals_pattern line))
        then continue
        else
          match last_amount line, following with
          | Some v, _ => Some v
          | None, [] => continue
          | None, next_line :: _ =>
              if contains "%" next_line then continue
              else
                match last_amount next_line with
                | Some v => Some v
                | None => continue
                end
          end
      else continue
  end.

Lemma amount_loop_search (lines label_keywords : list string) (i : nat) :
  amount_loop lines label_keywords i (drop i lines)
  = label_proximity_search label_keywords (drop i lines).
Proof.
  remember (drop i lines) as todo eqn:E.
  revert i E; induction todo as [|line todo IH]; intros i E; [reflexivity |].
  assert (Et : todo = drop (S i) lines).
  { rewrite <- (Nat.add_1_r i), <- drop_drop, <- E. reflexivity. }
  assert (En : lines !! (i + 1) = head todo).
  { rewrite <- (lookup_drop lines i 1), <- E. now destruct todo. }
  cbn [amount_loop label_proximity_search].
  rewrite (IH (S i) Et), En.
  destruct (has_keyword label_keywords line); cbn [negb]; [| reflexivity].
  destruct (contains "%" line && negb (is_some (search decimals_pattern line)));
    [reflexivity |].
  destruct (last_amount line); [reflexivity |].
  now destruct todo.
Qed.

End AmountSearch.

(** ** The record [_parse_deep_fields] builds *)

Section Fields.

Import Py Re Core.

Implicit Types (data : gmap string string) (key : string).

Lemma assign_other key val data k :
  key <> k -> assign key val data !! k = data !! k.
Proof.
  intros N. unfold assign. destruct (found val); [| reflexivity].
  now apply lookup_insert_ne.
Qed.

Lemma assign_same key val data :
  assign key val data !! key
  = match found val with Some v => Some v | None => data !! key end.
Proof.
  unfold assign. destruct (found val); [| reflexivity]. apply lookup_insert_eq.
Qed.

Lemma assign_match_other key m value data k :
  key <> k -> assign_match key m value data !! k = data !! k.
Proof.
  intros N. destruct m; [| reflexivity]. now apply lookup_insert_ne.
Qed.

Lemma assign_match_same key m value data :
  assign_match key m value data !! key
  = match m with Some m => Some (value m) | None => data !! key end.
Proof. destruct m; [| reflexivity]. apply lookup_insert_eq. Qed.

Lemma set_vendor_other lines data k :
  "vendor_name" <> k -> set_vendor lines data !! k = data !! k.
Proof.
  intros N. unfold set_vendor. destruct (vendor_scan _); [| reflexivity].
  now apply lookup_insert_ne.
Qed.

Lemma set_gstin_other all_gst data k :
  "vendor_gstin" <> k -> set_gstin all_gst data !! k = data !! k.
Proof.
  intros N. destruct all_gst; [reflexivity |]. now apply lookup_insert_ne.
Qed.

Lemma set_total_other lines data k :
  "grand_total" <> k -> set_total lines data !! k = data !! k.
Proof.
  intros N. unfold set_total. destruct (first_total _ _); [| reflexivity].
  now apply lookup_insert_ne.
Qed.

Lemma set_fallback_other lines data k :
  "grand_total" <> k -> set_fallback lines data !! k = data !! k.
Proof.
  intros N. unfold set_fallback.
  destruct (String.eqb _ _); [| reflexivity].
  destruct (fallback_total _ _ _) as [[t|]|]; try reflexivity.
  now apply lookup_insert_ne.
Qed.

(** Every update that does not write [k] is passed over. *)
Ltac skip_updates :=
  repeat first
    [ rewrite lookup_insert_ne by discriminate
    | rewrite set_fallback_other by discriminate
    | rewrite set_total_other by discriminate
    | rewrite assign_other by discriminate
    | rewrite assign_match_other by discriminate
    | rewrite set_gstin_other by discriminate
    | rewrite set_vendor_other by discriminate ].

(** What each heuristic finds, if anything. *)
Definition vendor_found (text : string) : option string :=
  vendor_scan (firstn 10 (split_lines text)).

Definition gstin_found (text : string) : option string :=
  head (findall gst_pattern text).

Definition buyer_found (text : string) : option string :=
  (fun m => strip (group 2 m)) <$> search buyer_pattern text.

Definition number_found (text : string) : option string :=
  group 2 <$> search invoice_number_pattern text.

Definition date_found (text : string) : option string :=
  group 1 <$> search date_pattern text.

Definition tax_found (label : string) (text : string) : option string :=
  found (extract_amount_smart (split_lines text) [label]).

Definition total_found (text : string) : option string :=
  first_total (split_lines text) total_labels.

(** The value of the fallback, if it sets one. *)
Definition fallback_found (text : string) : option string :=
  mjoin (fallback_total (split_lines text)
           (default "0.00" (tax_found "CGST" text))
           (default "0.00" (tax_found "SGST" text))).

Lemma vendor_name_value text :
  _parse_deep_fields text !! "vendor_name"
  = Some (default "Unknown" (vendor_found text)).
Proof.
  unfold _parse_deep_fields. skip_updates.
  unfold set_vendor, vendor_found. destruct (vendor_scan _); simpl.
  - apply lookup_insert_eq.
  - reflexivity.
Qed.

Lemma vendor_gstin_value text :
  _parse_deep_fields text !! "vendor_gstin"
  = Some (default "N/A" (gstin_found text)).
Proof.
  unfold _parse_deep_fields. skip_updates.
  unfold set_gstin, gstin_found. destruct (findall _ _); simpl.
  - now rewrite set_vendor_other by discriminate.
  - apply lookup_insert_eq.
Qed.

Lemma buyer_name_value text :
  _parse_deep_fields text !! "buyer_name"
  = Some (default "Unknown" (buyer_found text)).
Proof.
  unfold _parse_deep_fields. skip_updates. rewrite assign_match_same.
  unfold buyer_found. destruct (search _ _); simpl; [reflexivity |].
  now skip_updates.
Qed.

Lemma invoice_number_value text :
  _parse_deep_fields text !! "invoice_number"
  = Some (default "N/A" (number_found text)).
Proof.
  unfold _parse_deep_fields. skip_updates. rewrite assign_match_same.
  unfold number_found. destruct (search _ _); simpl; [reflexivity |].
  now skip_updates.
Qed.

Lemma invoice_date_value text :
  _parse_deep_fields text !! "invoice_date"
  = Some (default "N/A" (date_found text)).
Proof.
  unfold _parse_deep_fields. skip_updates. rewrite assign_match_same.
  unfold date_found. destruct (search _ _); simpl; [reflexivity |].
  now skip_updates.
Qed.

Lemma cgst_value text :
  _parse_deep_fields text !! "cgst" = Some (default "0.00" (tax_found "CGST" text)).
Proof.
  unfold _parse_deep_fields. skip_updates. rewrite assign_same.
  unfold tax_found. destruct (found _); simpl; [reflexivity |].
  now skip_updates.
Qed.

Lemma sgst_value text :
  _parse_deep_fields text !! "sgst" = Some (default "0.00" (tax_found "SGST" text)).
Proof.
  unfold _parse_deep_fields. skip_updates. rewrite assign_same.
  unfold tax_found. destruct (found _); simpl; [reflexivity |].
  now skip_updates.
Qed.

Lemma currency_value text :
  _parse_deep_fields text !! "currency" = Some "INR".
Proof. unfold _parse_deep_fields. now skip_updates. Qed.

Lemma lookup_total_of_lookup data key v :
  data !! key = Some v -> data !!! key = v.
Proof. intros H. now rewrite lookup_total_alt, H. Qed.

(** The grand total: the value found under a label; when that is absent or
    "0.00", the value of the fallback if it sets one. *)
Lemma grand_total_value text :
  _parse_deep_fields text !! "grand_total"
  = Some (let direct := default "0.00" (total_found text) in
          if String.eqb direct "0.00"
          then default direct (fallback_found text)
          else direct).
Proof.
  unfold _parse_deep_fields. skip_updates.
  set (lines := split_lines text).
  set (d := assign "sgst" _ _).
  assert (Hc : d !!! "cgst" = default "0.00" (tax_found "CGST" text)).
  { apply lookup_total_of_lookup. subst d. skip_updates. rewrite assign_same.
    unfold tax_found. fold lines. destruct (found _); simpl; [reflexivity |].
    now skip_updates. }
  assert (Hs : d !!! "sgst" = default "0.00" (tax_found "SGST" text)).
  { apply lookup_total_of_lookup. subst d. rewrite assign_same.
    unfold tax_found. fold lines. destruct (found _); simpl; [reflexivity |].
    now skip_updates. }
  assert (Hg : d !! "grand_total" = Some "0.00").
  { subst d. now skip_updates. }
  assert (Ht : set_total lines d !! "grand_total"
               = Some (default "0.00" (total_found text))).
  { unfold set_total, total_found. fold lines.
    destruct (first_total _ _); simpl; [apply lookup_insert_eq | exact Hg]. }
  assert (Hc' : set_total lines d !!! "cgst" = d !!! "cgst").
  { rewrite !lookup_total_alt. now rewrite set_total_other by discriminate. }
  assert (Hs' : set_total lines d !!! "sgst" = d !!! "sgst").
  { rewrite !lookup_total_alt. now rewrite set_total_other by discriminate. }
  unfold set_fallback.
  rewrite (lookup_total_of_lookup _ _ _ Ht), Hc', Hs', Hc, Hs.
  cbv zeta. unfold fallback_found. fold lines.
  destruct (String.eqb _ "0.00"); [| exact Ht].
  destruct (fallback_total _ _ _) as [[t|]|]; simpl;
    [apply lookup_insert_eq | exact Ht | exact Ht].
Qed.

(** The record carries no error mark. *)
Lemma no_error_mark text key :
  key = "status" \/ key = "error" -> _parse_deep_fields text !! key = None.
Proof.
  intros [-> | ->]; unfold _parse_deep_fields; now skip_updates.
Qed.

(** The fields of an extracted invoice, by the keys the program uses
    ([vendor_gstin] is the vendor tax id). *)
Definition field_names : list string :=
  ["invoice_number"; "invoice_date"; "vendor_name"; "vendor_gstin";
   "buyer_name"; "cgst"; "sgst"; "grand_total"; "currency"].

Lemma fields_present text :
  Forall (fun key => is_Some (_parse_deep_fields text !! key)) field_names.
Proof.
  unfold field_names. repeat apply Forall_cons_2; [..| apply Forall_nil_2].
  - rewrite invoice_number_value; eauto.
  - rewrite invoice_date_value; eauto.
  - rewrite vendor_name_value; eauto.
  - rewrite vendor_gstin_value; eauto.
  - rewrite buyer_name_value; eauto.
  - rewrite cgst_value; eauto.
  - rewrite sgst_value; eauto.
  - rewrite grand_total_value; eauto.
  - rewrite currency_value; eauto.
Qed.

End Fields.

(** ** The encryption helper *)

Section SecurityFacts.

Import Py Security.

(** A cipher that meets the contract of [fernet]: a token is the data
    behind a one-byte version mark, as a Fernet token starts with its
    version byte.  It shows the contract can be met and runs the examples. *)
Definition marked_decrypt (token : bytes) : option bytes :=
  match token with
  | String c d => if Ascii.eqb c (ascii_of_N 128) then Some d else None
  | EmptyString => None
  end.

Definition marked_cipher : fernet :=
  {| entropy := unit;
     encrypt := fun _ d => String (ascii_of_N 128) d;
     decrypt := marked_decrypt;
     decrypt_encrypt := fun _ _ => eq_refl;
     decrypt_empty := eq_refl |}.

Variable F : fernet.

Lemma encrypt_not_empty (e : entropy F) (d : bytes) : encrypt F e d <> "".
Proof.
  intros E. pose proof (decrypt_encrypt F e d) as H.
  rewrite E, decrypt_empty in H. discriminate.
Qed.

Lemma truthy_true (s : string) : s <> "" -> truthy s = true.
Proof. destruct s; [congruence | reflexivity]. Qed.

Lemma decode_encode (s : string) : utf8_valid s = true -> decode (encode s) = Some s.
Proof. intros V. unfold decode, encode. now rewrite V. Qed.

Lemma decrypt_encrypt_data (e : entropy F) (s : string) :
  utf8_valid s = true ->
  fst (decrypt_data F (fst (encrypt_data F e s))) = s.
Proof.
  intros V. unfold encrypt_data. destruct s as [|a s]; [reflexivity |].
  cbn [truthy negb fst]. unfold decrypt_data.
  rewrite (truthy_true _ (encrypt_not_empty e _)). cbn [negb fst].
  rewrite decrypt_encrypt. cbn [mbind option_bind].
  now rewrite (decode_encode _ V).
Qed.

Lemma decrypt_data_rejected (token : bytes) :
  token <> "" -> decrypt F token ≫= decode = None ->
  fst (decrypt_data F token) = DECRYPTION_FAILED.
Proof.
  intros N R. unfold decrypt_data. rewrite (truthy_true _ N). cbn [negb fst].
  now rewrite R.
Qed.

End SecurityFacts.

(** ** The record store *)

Section StorageFacts.

Import Storage.

Variable json_dumps : gmap string string -> string.
Variable F : Security.fernet.

Implicit Types (d : db) (data : gmap string string).

Lemma hash_present_app h d r lid :
  hash_present h (Db (rows d ++ [r]) lid)
  = hash_present h d || String.eqb (file_hash r) h.
Proof.
  unfold hash_present. cbn [rows]. rewrite existsb_app. cbn [existsb].
  now rewrite orb_false_r.
Qed.

Lemma save_invoice_new e now d filename h data :
  hash_present h d = false ->
  exists r,
    save_invoice json_dumps F e now d filename h data
    = (true, Db (rows d ++ [r]) (S (last_id d)))
    /\ file_hash r = h /\ Storage.filename r = filename
    /\ Storage.id r = S (last_id d).
Proof.
  intros H. unfold save_invoice. rewrite H. eexists. repeat split.
Qed.

Lemma save_invoice_duplicate e now d filename h data :
  hash_present h d = true ->
  save_invoice json_dumps F e now d filename h data = (false, d).
Proof. intros H. unfold save_invoice. now rewrite H. Qed.

Lemma save_invoice_then_present e now d filename h data :
  hash_present h d = false ->
  hash_present h (snd (save_invoice json_dumps F e now d filename h data)) = true.
Proof.
  intros H. destruct (save_invoice_new e now d filename h data H) as (r & -> & Hr & _).
  cbn [snd]. rewrite hash_present_app, Hr, String.eqb_refl. apply orb_true_r.
Qed.

Lemma save_invoice_other_absent e now d filename h data h' :
  h <> h' -> hash_present h' d = false ->
  hash_present h' (snd (save_invoice json_dumps F e now d filename h data)) = false.
Proof.
  intros N H. unfold save_invoice. destruct (hash_present h d); [exact H |].
  cbn [snd]. rewrite hash_present_app, H. cbn [file_hash orb].
  now apply String.eqb_neq.
Qed.

(** The invariant of the table: no two rows with the same hash. *)
Definition unique_hashes d : Prop := NoDup (List.map file_hash (rows d)).

Lemma hash_absent_not_in h d :
  hash_present h d = false -> h ∉ List.map file_hash (rows d).
Proof.
  unfold hash_present. intros H I. apply list_elem_of_In, in_map_iff in I as (r & <- & I).
  apply not_true_iff_false in H. apply H, existsb_exists.
  exists r. split; [exact I | apply String.eqb_refl].
Qed.

Lemma save_invoice_unique e now d filename h data :
  unique_hashes d ->
  unique_hashes (snd (save_invoice json_dumps F e now d filename h data)).
Proof.
  intros U. unfold save_invoice. destruct (hash_present h d) eqn:H; [exact U |].
  unfold unique_hashes. cbn [snd rows]. rewrite map_app. cbn [List.map file_hash].
  apply NoDup_app. split; [exact U |]. split; [| apply NoDup_singleton].
  intros x I ->%list_elem_of_singleton. now apply hash_absent_not_in in I.
Qed.

End StorageFacts.

(** ** The vendor tax id *)

Section TaxId.

Import Py Re Core.






Ltac inv_matches :=
  repeat match goal with
  | H : matches Eps _ _ _ _ |- _ => inversion H; subst; clear H
  | H : matches (Chr _) _ _ _ _ |- _ => inversion H; subst; clear H
  | H : matches (Cat _ _) _ _ _ _ |- _ => inversion H; subst; clear H
  | H : matches (Opt _) _ _ _ _ |- _ => inversion H; subst; clear H
  | H : matches (Alt _ _) _ _ _ _ |- _ => inversion H; subst; clear H
  | H : matches (Grp _ _) _ _ _ _ |- _ => inversion H; subst; clear H
  end.







End TaxId.

(** ** The amount grammar *)

Section AmountGrammar.

Import Py Re Core PyFloat.

Ltac inv_matches :=
  repeat match goal with
  | H : matches Eps _ _ _ _ |- _ => inversion H; subst; clear H
  | H : matches (Chr _) _ _ _ _ |- _ => inversion H; subst; clear H
  | H : matches (Cat _ _) _ _ _ _ |- _ => inversion H; subst; clear H
  | H : matches (Opt _) _ _ _ _ |- _ => inversion H; subst; clear H
  | H : matches (Alt _ _) _ _ _ _ |- _ => inversion H; subst; clear H
  | H : matches (Grp _ _) _ _ _ _ |- _ => inversion H; subst; clear H
  end.

(** The thousands groups of an amount: ",ddd" any number of times. *)
Inductive comma_groups : string -> Prop :=
| cg_nil : comma_groups ""
| cg_cons a b c gs :
    is_digit a = true -> is_digit b = true -> is_digit c = true ->
    comma_groups gs ->
    comma_groups (String "," (String a (String b (String c gs)))).

(** The text of an amount: one to three digits, thousands groups, a
    point and two digits. *)
Definition amount_shape (body : string) : Prop :=
  exists i gs x y,
    body = i +:+ gs +:+ String "." (String x (String y ""))
    /\ all_digits i = true /\ 1 <= String.length i <= 3
    /\ comma_groups gs /\ is_digit x = true /\ is_digit y = true.

Fixpoint all_in (p : ascii -> bool) (s : string) : bool :=
  match s with
  | EmptyString => true
  | String a s' => p a && all_in p s'
  end.

(** What may stand before the amount: nothing, or "INR" and white space. *)
Definition currency_prefix (pre : string) : Prop :=
  pre = "" \/ exists ws, pre = "INR" +:+ ws /\ all_in is_space ws = true.

Definition thousands : re := Cat (Lit ",") (Times 3 digit).

Lemma star_class_inv (p : ascii -> bool) s c s' c' :
  matches (Star (Chr p)) s c s' c' ->
  exists w, s = w +:+ s' /\ all_in p w = true /\ c' = c.
Proof.
  remember (Star (Chr p)) as R eqn:ER. intros M.
  induction M as [| | | | | | |r s c|r s c s1 c1 s2 c2 M1 _ L M2 IH|];
    try discriminate ER.
  - now exists "".
  - injection ER as ->. destruct (IH eq_refl) as (w & -> & Hw & ->).
    inversion M1 as [|? a ? ? P| | | | | | | |]; subst.
    exists (String a w). simpl. now rewrite P, Hw.
Qed.

Lemma star_thousands_inv s c s' c' :
  matches (Star thousands) s c s' c' ->
  exists gs, s = gs +:+ s' /\ comma_groups gs /\ c' = c.
Proof.
  remember (Star thousands) as R eqn:ER. intros M.
  induction M as [| | | | | | |r s c|r s c s1 c1 s2 c2 M1 _ L M2 IH|];
    try discriminate ER.
  - exists "". repeat split. constructor.
  - injection ER as ->. destruct (IH eq_refl) as (gs & -> & Hgs & ->).
    unfold thousands, digit, Lit in M1. cbn [Times] in M1. inv_matches.
    match goal with H : Ascii.eqb "," _ = true |- _ =>
      apply Ascii.eqb_eq in H; subst end.
    eexists (String "," (String _ (String _ (String _ gs)))).
    repeat split. now constructor.
Qed.

(** Every match of [AMOUNT_REGEX] reads a currency prefix and an amount,
    and its group is the amount. *)
Lemma amount_matches_shape s c s' c' :
  matches AMOUNT_REGEX s c s' c' ->
  exists pre body,
    s = pre +:+ body +:+ s' /\ currency_prefix pre /\ amount_shape body
    /\ c' = (1, body) :: c.
Proof.
  unfold AMOUNT_REGEX. intros M.
  inversion M as [| |? ? ? ? s1 c1 ? ? Mpre Mgrp| | | | | | |]; subst; clear M.
  inversion Mgrp as [| | | | | | | | |? ? ? ? ? c2 Mbody]; subst; clear Mgrp.
  assert (Hpre : exists pre, s = pre +:+ s1 /\ currency_prefix pre /\ c1 = c).
  { inversion Mpre as [| | | | |? ? ? ? ? Mp| | | |]; subst; clear Mpre.
    - cbn [Str] in Mp. unfold Lit in Mp.
      inversion Mp as [| |? ? ? ? s2 c3 ? ? Minr Mws| | | | | | |]; subst; clear Mp.
      apply star_class_inv in Mws as (ws & -> & Hws & ->).
      inv_matches.
      repeat match goal with H : Ascii.eqb _ _ = true |- _ =>
        apply Ascii.eqb_eq in H; subst end.
      exists ("INR" +:+ ws). repeat split. right. now exists ws.
    - exists "". repeat split. now left. }
  clear Mpre. destruct Hpre as (pre & -> & Hpre & ->).
  assert (Hbody : exists body, s1 = body +:+ s' /\ amount_shape body /\ c2 = c).
  { unfold AMOUNT_BODY, Rep in Mbody. cbn [Times UpTo Nat.sub] in Mbody.
    fold thousands in Mbody. unfold digit, Lit in Mbody.
    inversion Mbody as [| |? ? ? ? s2 c3 ? ? Mint Mrest| | | | | | |]; subst; clear Mbody.
    inversion Mrest as [| |? ? ? ? s3 c4 ? ? Mgs Mdec| | | | | | |]; subst; clear Mrest.
    apply star_thousands_inv in Mgs as (gs & -> & Hgs & ->).
    inv_matches;
    match goal with H : Ascii.eqb "." _ = true |- _ =>
      apply Ascii.eqb_eq in H; subst end;
    match goal with
    | |- exists body, ?s = _ /\ _ /\ _ =>
        lazymatch s with
        | String ?a (String ?b (String ?c (gs +:+ String "." (String ?x (String ?y _))))) =>
            exists (String a (String b (String c "")) +:+ gs +:+ String "." (String x (String y "")));
            split; [cbn [String.append]; now rewrite app_assoc_s |];
            split; [| reflexivity];
            exists (String a (String b (String c ""))), gs, x, y
        | String ?a (String ?b (gs +:+ String "." (String ?x (String ?y _)))) =>
            exists (String a (String b "") +:+ gs +:+ String "." (String x (String y "")));
            split; [cbn [String.append]; now rewrite app_assoc_s |];
            split; [| reflexivity];
            exists (String a (String b "")), gs, x, y
        | String ?a (gs +:+ String "." (String ?x (String ?y _))) =>
            exists (String a "" +:+ gs +:+ String "." (String x (String y "")));
            split; [cbn [String.append]; now rewrite app_assoc_s |];
            split; [| reflexivity];
            exists (String a ""), gs, x, y
        end
    end;
    (split; [reflexivity |]);
    (split; [cbn [all_digits]; repeat match goal with H : is_digit _ = true |- _ =>
                rewrite H end; reflexivity |]);
    (split; [simpl; lia |]); auto. }
  destruct Hbody as (body & -> & Hbody & ->).
  exists pre, body. repeat split; try assumption.
  now rewrite consumed_app.
Qed.





(** *** The value of an amount *)

Lemma digit_eqb (c d : ascii) :
  is_digit c = false -> is_digit d = true -> Ascii.eqb c d = false.
Proof.
  intros Hc Hd. apply Ascii.eqb_neq. intros ->. congruence.
Qed.

Lemma replace_digits (i t : string) :
  all_digits i = true -> replace "," "" (i +:+ t) = i +:+ replace "," "" t.
Proof.
  induction i as [|a i IH]; intros D; [reflexivity |].
  cbn [all_digits] in D. apply andb_prop in D as [Da D].
  cbn [String.append]. rewrite replace_miss.
  - now rewrite (IH D).
  - cbn [startswith]. now rewrite (digit_eqb "," a eq_refl Da).
Qed.

Lemma all_digits_app (a b : string) :
  all_digits (a +:+ b) = all_digits a && all_digits b.
Proof.
  induction a as [|x a IH]; [reflexivity |].
  cbn [String.append all_digits]. now rewrite IH, andb_assoc.
Qed.

Lemma strip_groups (gs : string) (x y : ascii) :
  comma_groups gs -> is_digit x = true -> is_digit y = true ->
  exists dg, all_digits dg = true
    /\ replace "," "" (gs +:+ String "." (String x (String y "")))
       = dg +:+ String "." (String x (String y "")).
Proof.
  intros G Hx Hy. induction G as [|a b d gs Ha Hb Hd _ (dg & Ddg & E)].
  - exists "". split; [reflexivity |]. cbn [String.append].
    rewrite replace_miss by reflexivity.
    rewrite replace_miss by (cbn [startswith]; now rewrite (digit_eqb "," x eq_refl Hx)).
    rewrite replace_miss by (cbn [startswith]; now rewrite (digit_eqb "," y eq_refl Hy)).
    reflexivity.
  - exists (String a (String b (String d dg))). split.
    + cbn [all_digits]. now rewrite Ha, Hb, Hd.
    + change (String "," (String a (String b (String d gs)))
              +:+ String "." (String x (String y "")))
        with (String "," "" +:+ (String a (String b (String d ""))
              +:+ (gs +:+ String "." (String x (String y ""))))).
      rewrite replace_hit.
      match goal with |- "" +:+ ?X = ?Y => change (X = Y) end.
      rewrite replace_digits by (cbn [all_digits]; now rewrite Ha, Hb, Hd).
      now rewrite E.
Qed.

(** Without its commas an amount is digits, a point and two digits. *)
Lemma amount_without_commas (body : string) :
  amount_shape body ->
  exists ds x y,
    replace "," "" body = ds +:+ String "." (String x (String y ""))
    /\ all_digits ds = true /\ ds <> ""
    /\ is_digit x = true /\ is_digit y = true.
Proof.
  intros (i & gs & x & y & -> & Di & Li & G & Hx & Hy).
  destruct (strip_groups gs x y G Hx Hy) as (dg & Ddg & E).
  exists (i +:+ dg), x, y. rewrite replace_digits by exact Di.
  rewrite E, app_assoc_s. repeat split; try assumption.
  - now rewrite all_digits_app, Di, Ddg.
  - destruct i; [simpl in Li; lia | discriminate].
Qed.

Lemma split_point_digits (ds r : string) :
  all_digits ds = true ->
  split_point (ds +:+ String "." r) = (ds, Some r).
Proof.
  induction ds as [|a ds IH]; intros D; [reflexivity |].
  cbn [all_digits] in D. apply andb_prop in D as [Da D].
  cbn [String.append split_point].
  rewrite Ascii.eqb_sym, (digit_eqb "." a eq_refl Da). now rewrite (IH D).
Qed.

Lemma py_float_decimal (ds : string) (x y : ascii) :
  all_digits ds = true -> ds <> "" ->
  is_digit x = true -> is_digit y = true ->
  py_float (ds +:+ String "." (String x (String y "")))
  = Some (of_decimal (digits_value 0 (ds +:+ String x (String y ""))) 2).
Proof.
  intros D N Hx Hy. unfold py_float. rewrite (split_point_digits _ _ D).
  cbn [from_option id]. rewrite D. cbn [all_digits]. rewrite Hx, Hy.
  destruct ds; [congruence | reflexivity].
Qed.

Lemma finditer_from_match (r : re) (m : mtch) : forall s skip,
  In m (finditer_from r skip s) -> exists t, match_at r t = Some m.
Proof.
  induction s as [|a s IH]; intros skip H.
  - destruct skip; cbn [finditer_from] in H; [| contradiction].
    destruct (match_at r "") as [m'|] eqn:E; [| contradiction].
    destruct H as [<- | []]. eauto.
  - destruct skip; cbn [finditer_from] in H; [| eauto].
    destruct (match_at r (String a s)) as [m'|] eqn:E; [| eauto].
    destruct H as [<- | H]; eauto.
Qed.

Lemma last_in {X : Type} (l : list X) (d : X) : l <> [] -> In (List.last l d) l.
Proof.
  induction l as [|x [|y l] IH]; intros N; [congruence | now left |].
  right. apply IH. discriminate.
Qed.

Lemma amount_has_group : has_group AMOUNT_REGEX = true.
Proof. reflexivity. Qed.

(** What [last_amount] returns is the group of a match, without commas. *)
Lemma last_amount_body (line v : string) :
  last_amount line = Some v ->
  exists body, amount_shape body /\ v = replace "," "" body.
Proof.
  unfold last_amount, findall. rewrite amount_has_group.
  destruct (List.map _ (finditer AMOUNT_REGEX line)) as [|g gs] eqn:E;
    [discriminate |].
  intros [= <-].
  assert (I : In (List.last (g :: gs) "") (g :: gs)) by (apply last_in; discriminate).
  rewrite <- E in I. apply in_map_iff in I as (m & Hm & I).
  apply finditer_from_match in I as [t Ht].
  apply match_at_sound in Ht as [_ M].
  apply amount_matches_shape in M as (pre & body & _ & _ & Sh & Hg).
  exists body. split; [exact Sh |]. rewrite E in Hm.
  change (replace "," "" (List.last (g :: gs) "") = replace "," "" body).
  rewrite <- Hm. unfold group. now rewrite Hg.
Qed.




Lemma last_amount_parses (line v : string) :
  last_amount line = Some v -> is_Some (py_float v) /\ v <> "".
Proof.
  intros H. apply last_amount_body in H as (body & Sh & ->).
  apply amount_without_commas in Sh as (ds & x & y & -> & D & N & Hx & Hy).
  rewrite (py_float_decimal _ _ _ D N Hx Hy). split; [eauto |].
  destruct ds; [congruence | discriminate].
Qed.

(** Whatever the search returns, [float] reads. *)
Lemma search_parses (label_keywords lines : list string) (v : string) :
  label_proximity_search label_keywords lines = Some v ->
  is_Some (py_float v) /\ v <> "".
Proof.
  induction lines as [|line following IH]; [discriminate |].
  cbn [label_proximity_search].
  destruct (has_keyword label_keywords line); [| exact IH].
  destruct (contains "%" line && negb (Core.is_some (search decimals_pattern line)));
    [exact IH |].
  destruct (last_amount line) as [v1|] eqn:E1.
  - intros [= <-]. eapply last_amount_parses; eassumption.
  - destruct following as [|next_line more]; [exact IH |].
    destruct (contains "%" next_line); [exact IH |].
    destruct (last_amount next_line) as [v2|] eqn:E2; [| exact IH].
    intros [= <-]. eapply last_amount_parses; eassumption.
Qed.

Lemma extract_parses (lines label_keywords : list string) (v : string) :
  extract_amount_smart lines label_keywords = Some v ->
  is_Some (py_float v) /\ v <> "".
Proof.
  unfold extract_amount_smart.
  change (amount_loop lines label_keywords 0 lines)
    with (amount_loop lines label_keywords 0 (drop 0 lines)).
  rewrite (amount_loop_search lines label_keywords 0). apply search_parses.
Qed.

End AmountGrammar.

(** ** The fallback for the grand total *)

Section Fallback.

Import Py Re Core PyFloat.




(** [text] from its lines: joined by line feeds. *)
Definition unlines (ls : list string) : string := String.concat (String LF "") ls.





(** *** The format with two fraction digits *)









End Fallback.

(** ** Amounts written without thousands separators *)

Section Unseparated.

Import Py Re Core PyFloat.













End Unseparated.

Section UnseparatedScan.

Import Py Re Core PyFloat.

Implicit Types (D P Q : string) (x y : ascii).






End UnseparatedScan.

Section UnseparatedAmount.

Import Py Re Core PyFloat.





End UnseparatedAmount.

(** ** Inputs of the examples *)


(** A store run: [json.dumps] gives some text, the cipher is
    [marked_cipher], and the clock reads the same minute throughout. *)
Definition example_dumps (data : gmap string string) : string := "{}".

Definition example_save :=
  Storage.save_invoice example_dumps marked_cipher tt "2024-01-01 10:00".

(** The table after one document was saved. *)
Definition example_db : Storage.db :=
  snd (example_save Storage.empty_db "a.pdf" "9f86d0" Core.defaults).

(** * The claims of the specification *)






(** C3.  [save_invoice] keyed by the file hash: from any table, a hash
    that is not in the table is inserted ([True], one row more); a hash that
    is in the table is rejected ([False]) and the table, the existing row
    included, is left as it was.  The same hash twice gives [True] then
    [False]; two documents with different hashes and the same extracted
    data give [True] twice.  A table without two rows of the same hash
    stays so. *)
Theorem save_invoice_dedup (json_dumps : gmap string string -> string)
    (F : Security.fernet) (e e' : Security.entropy F) (now now' : string)
    (d : Storage.db) (filename filename' h h' : string)
    (data data' : gmap string string) :
  let save := Storage.save_invoice json_dumps F in
  (Storage.hash_present h d = false ->
     exists r, save e now d filename h data
               = (true, Storage.Db (Storage.rows d ++ [r]) (S (Storage.last_id d)))
               /\ Storage.file_hash r = h)
  /\ (Storage.hash_present h d = true ->
        save e now d filename h data = (false, d))
  /\ (Storage.hash_present h d = false ->
        let (first, d1) := save e now d filename h data in
        first = true /\ save e' now' d1 filename' h data' = (false, d1))
  /\ (Storage.hash_present h d = false -> Storage.hash_present h' d = false ->
      h <> h' ->
        let (first, d1) := save e now d filename h data in
        let (second, d2) := save e' now' d1 filename' h' data in
        first = true /\ second = true
        /\ length (Storage.rows d2) = S (S (length (Storage.rows d))))
  /\ (unique_hashes d -> unique_hashes (snd (save e now d filename h data))).
Proof.
  cbv zeta. split; [| split; [| split; [| split]]];
    [| | | | apply save_invoice_unique].
  - intros H. destruct (save_invoice_new json_dumps F e now d filename h data H)
      as (r & E & Hr & _). eauto.
  - apply save_invoice_duplicate.
  - intros H.
    pose proof (save_invoice_then_present json_dumps F e now d filename h data H) as P.
    destruct (save_invoice_new json_dumps F e now d filename h data H)
      as (r & E & _). rewrite E in *. cbn [snd] in P.
    split; [reflexivity |]. now apply save_invoice_duplicate.
  - intros H H' N.
    pose proof (save_invoice_other_absent json_dumps F e now d filename h data h' N H') as P.
    destruct (save_invoice_new json_dumps F e now d filename h data H)
      as (r & E & _). rewrite E in *. cbn [snd] in P.
    destruct (save_invoice_new json_dumps F e' now' _ filename' h' data P)
      as (r' & E' & _). rewrite E'. cbn [Storage.rows Storage.last_id].
    repeat split. rewrite !length_app. simpl. lia.
Qed.

Lemma save_invoice_dedup_witness :
  (exists r, example_save Storage.empty_db "a.pdf" "9f86d0" Core.defaults
             = (true, Storage.Db ([] ++ [r]) 1)
             /\ Storage.file_hash r = "9f86d0")
  /\ example_save example_db "copy.pdf" "9f86d0" Core.defaults
     = (false, example_db)
  /\ (let (first, d1) := example_save Storage.empty_db "a.pdf" "9f86d0" Core.defaults in
      first = true
      /\ example_save d1 "copy.pdf" "9f86d0" Core.defaults = (false, d1))
  /\ (let (first, d1) := example_save Storage.empty_db "a.pdf" "9f86d0" Core.defaults in
      let (second, d2) := example_save d1 "b.pdf" "60303a" Core.defaults in
      first = true /\ second = true
      /\ length (Storage.rows d2) = 2)
  /\ unique_hashes example_db.
Proof.
  pose proof (save_invoice_dedup example_dumps marked_cipher tt tt
                "2024-01-01 10:00" "2024-01-01 10:00" Storage.empty_db
                "a.pdf" "copy.pdf" "9f86d0" "60303a" Core.defaults Core.defaults)
    as (T1 & _ & T3 & _).
  pose proof (save_invoice_dedup example_dumps marked_cipher tt tt
                "2024-01-01 10:00" "2024-01-01 10:00" Storage.empty_db
                "a.pdf" "b.pdf" "9f86d0" "60303a" Core.defaults Core.defaults)
    as (_ & _ & _ & T4).
  pose proof (save_invoice_dedup example_dumps marked_cipher tt tt
                "2024-01-01 10:00" "2024-01-01 10:00" example_db
                "copy.pdf" "copy.pdf" "9f86d0" "60303a" Core.defaults Core.defaults)
    as (_ & T2 & _ & _).
  pose proof (save_invoice_dedup example_dumps marked_cipher tt tt
                "2024-01-01 10:00" "2024-01-01 10:00" Storage.empty_db
                "a.pdf" "a.pdf" "9f86d0" "9f86d0" Core.defaults Core.defaults)
    as (_ & _ & _ & _ & T5).
  split; [| split; [| split; [| split]]].
  - apply T1. reflexivity.
  - apply T2. reflexivity.
  - apply T3. reflexivity.
  - apply T4; [reflexivity | reflexivity | discriminate].
  - apply T5. apply NoDup_nil_2.
Defined.


(** C5.  The currency normalization of [process_invoice] is idempotent:
    for every text, replacing the rupee sign, "Rs.", "Rs" and the
    mis-decoded rupee sign by "INR " a second time changes nothing. *)
Theorem normalize_currency_idempotent (text : string) :
  Core.normalize_currency (Core.normalize_currency text)
  = Core.normalize_currency text.
Proof.
  set (t := Core.normalize_currency text).
  assert (H : forall p, In p currency_spellings -> Py.contains p t = false)
    by (intros p; apply normalize_currency_clean).
  unfold Core.normalize_currency at 1.
  rewrite (replace_absent Core.RUPEE) by (apply H; simpl; tauto).
  rewrite (replace_absent "Rs.") by (apply H; simpl; tauto).
  rewrite (replace_absent "Rs") by (apply H; simpl; tauto).
  rewrite (replace_absent Core.RUPEE_MISDECODED) by (apply H; simpl; tauto).
  reflexivity.
Qed.

(** C6, as the program has it.  For every well-formed (UTF-8) record
    string, decrypting what [encrypt_data] returned gives the record back.
    For every non-empty token that the cipher rejects, or whose data is not
    UTF-8, [decrypt_data] returns "[DECRYPTION_FAILED]"; it is a total
    function, so no exception reaches the caller.  (The empty token is
    answered by the empty string.) *)
Theorem decrypt_data_round_trip (F : Security.fernet) :
  (forall (e : Security.entropy F) (record : string),
      Security.utf8_valid record = true ->
      fst (Security.decrypt_data F (fst (Security.encrypt_data F e record)))
      = record)
  /\ (forall token : Security.bytes,
        token <> "" ->
        Security.decrypt F token ≫= Security.decode = None ->
        fst (Security.decrypt_data F token) = "[DECRYPTION_FAILED]").
Proof.
  split.
  - apply decrypt_encrypt_data.
  - apply decrypt_data_rejected.
Qed.

Lemma decrypt_data_round_trip_witness :
  fst (Security.decrypt_data marked_cipher
         (fst (Security.encrypt_data marked_cipher tt "{cgst: 9.00}")))
  = "{cgst: 9.00}"
  /\ fst (Security.decrypt_data marked_cipher "gAAAAAB") = "[DECRYPTION_FAILED]".
Proof.
  split.
  - apply (proj1 (decrypt_data_round_trip marked_cipher) tt). reflexivity.
  - apply (proj2 (decrypt_data_round_trip marked_cipher)).
    + discriminate.
    + reflexivity.
Defined.

(** C6 as the specification words it does not hold: the empty token is
    rejected by the cipher, and [decrypt_data] answers it with the empty
    string, not with the sentinel. *)
Lemma decrypt_data_empty_token_no_sentinel :
  ~ (forall (F : Security.fernet) (token : Security.bytes),
        Security.decrypt F token ≫= Security.decode = None ->
        fst (Security.decrypt_data F token) = "[DECRYPTION_FAILED]").
Proof.
  intros H. specialize (H marked_cipher "" eq_refl). discriminate H.
Qed.



(** C8.  When the recovered text is empty, [process_invoice] returns the
    error outcome ("status": "Error", "error": "Empty File") and no invoice
    field; when the text is not empty, it returns a record with every
    invoice field and no error mark. *)
Theorem process_invoice_empty_text (text : string) :
  (text = "" ->
     Core.process_invoice text = Core.empty_file_error
     /\ Core.process_invoice text !! "status" = Some "Error"
     /\ Forall (fun key => Core.process_invoice text !! key = None) field_names)
  /\ (text <> "" ->
     Core.process_invoice text !! "status" = None
     /\ Core.process_invoice text !! "error" = None
     /\ Forall (fun key => is_Some (Core.process_invoice text !! key)) field_names).
Proof.
  split.
  - intros ->. repeat split. unfold field_names.
    repeat apply Forall_cons_2; [..| apply Forall_nil_2]; reflexivity.
  - intros N. unfold Core.process_invoice.
    destruct text as [|a text]; [congruence |]. cbn [Py.truthy negb].
    split; [| split; [| apply fields_present]]; apply no_error_mark; auto.
Qed.

Lemma process_invoice_empty_text_witness :
  (Core.process_invoice "" = Core.empty_file_error
   /\ Core.process_invoice "" !! "status" = Some "Error"
   /\ Forall (fun key => Core.process_invoice "" !! key = None) field_names)
  /\ (Core.process_invoice "Acme Corp" !! "status" = None
      /\ Core.process_invoice "Acme Corp" !! "error" = None
      /\ Forall (fun key => is_Some (Core.process_invoice "Acme Corp" !! key))
           field_names).
Proof.
  split.
  - apply (proj1 (process_invoice_empty_text "")). reflexivity.
  - apply (proj2 (process_invoice_empty_text "Acme Corp")). discriminate.
Defined.



(** C10.  [encrypt_data] on the empty string returns the empty bytes and
    makes no call on the cipher; [decrypt_data] on the empty bytes returns
    the empty string, not the sentinel, and makes no call either.  So the
    round trip holds for the empty record, whose stored form is not a token
    of the cipher. *)
Theorem empty_record_not_encrypted (F : Security.fernet) (e : Security.entropy F) :
  Security.encrypt_data F e "" = ("", [])
  /\ Security.decrypt_data F "" = ("", [])
  /\ fst (Security.decrypt_data F "") <> Security.DECRYPTION_FAILED
  /\ fst (Security.decrypt_data F (fst (Security.encrypt_data F e ""))) = ""
  /\ (forall (e' : Security.entropy F) (d : Security.bytes),
        fst (Security.encrypt_data F e "") <> Security.encrypt F e' d).
Proof.
  repeat split; try discriminate.
  intros e' d E. symmetry in E. now apply encrypt_not_empty in E.
Qed.

(** * Further properties of the code *)

(** ** The lines of a text *)

Section Lines.

Import Py Core.











(** [split] on a text in two parts around a separator. *)
Lemma split_from_app (sep : ascii) (a b : string) : forall cur,
  split_from sep cur (a +:+ String sep b)
  = split_from sep cur a ++ split_from sep "" b.
Proof.
  induction a as [|c a IH]; simpl; intros cur.
  - now rewrite Ascii.eqb_refl.
  - destruct (Ascii.eqb c sep); [now rewrite IH | apply IH].
Qed.

Lemma split_lines_app (a b : string) :
  split_lines (a +:+ String LF b) = split_lines a ++ split_lines b.
Proof.
  unfold split_lines, split. rewrite split_from_app.
  now rewrite List.filter_app, List.map_app.
Qed.

Lemma split_lines_line (text line : string) :
  In line (split_lines text) ->
  exists field, In field (split LF text) /\ line = strip field /\ line <> "".
Proof.
  unfold split_lines. intros H. apply in_map_iff in H as (field & <- & H).
  apply List.filter_In in H as [H T]. exists field. split; [exact H|]. split; [reflexivity|].
  intros E. now rewrite E in T.
Qed.

End Lines.
(** ** The text [_extract_content] recovers *)

Section Extraction.

Import Py Core.

(** A text that is empty or ends with a line feed: what the loops of
    [_extract_content] keep in [full_text]. *)
Definition closed (s : string) : Prop := s = "" \/ exists a, s = a +:+ String LF "".

Lemma split_lines_nil : split_lines "" = [].
Proof. reflexivity. Qed.

Lemma split_lines_closed (acc text : string) :
  closed acc ->
  split_lines (acc +:+ (text +:+ String LF ""))
  = split_lines acc ++ split_lines text.
Proof.
  intros [-> | [a ->]].
  - change ("" +:+ (text +:+ String LF "")) with (text +:+ String LF "").
    now rewrite split_lines_app, split_lines_nil, app_nil_r.
  - rewrite app_assoc_s.
    change (String LF "" +:+ (text +:+ String LF ""))
      with (String LF (text +:+ String LF "")).
    rewrite !split_lines_app, split_lines_nil, !app_nil_r. reflexivity.
Qed.

Lemma closed_app (acc text : string) : closed (acc +:+ (text +:+ String LF "")).
Proof. right. exists (acc +:+ text). now rewrite app_assoc_s. Qed.

Definition add_page (full_text text : string) : string :=
  if truthy text then full_text +:+ (text +:+ String LF "") else full_text.

Definition add_image (full_text text : string) : string :=
  full_text +:+ (text +:+ String LF "").

Lemma pages_closed (pages : list string) : forall acc,
  closed acc -> closed (fold_left add_page pages acc).
Proof.
  induction pages as [|p pages IH]; intros acc C; [exact C|].
  apply IH. unfold add_page. destruct (truthy p); [apply closed_app | exact C].
Qed.

Lemma pages_lines (pages : list string) : forall acc,
  closed acc ->
  split_lines (fold_left add_page pages acc)
  = split_lines acc ++ concat (List.map split_lines pages).
Proof.
  induction pages as [|p pages IH]; intros acc C; cbn [fold_left List.map concat].
  - now rewrite app_nil_r.
  - unfold add_page at 2. destruct p as [|c p]; cbn [truthy].
    + rewrite (IH acc C). reflexivity.
    + rewrite (IH _ (closed_app acc _)), split_lines_closed by exact C.
      now rewrite <- app_assoc.
Qed.

Lemma images_lines (ocr : list string) : forall acc,
  closed acc ->
  split_lines (fold_left add_image ocr acc)
  = split_lines acc ++ concat (List.map split_lines ocr).
Proof.
  induction ocr as [|p ocr IH]; intros acc C; cbn [fold_left List.map concat].
  - now rewrite app_nil_r.
  - unfold add_image at 2.
    rewrite (IH _ (closed_app acc _)), split_lines_closed by exact C.
    now rewrite <- app_assoc.
Qed.

Lemma text_layer_closed (pages : list string) : closed (text_layer pages).
Proof. apply pages_closed. now left. Qed.

Lemma fold_pages_prefix (pages : list string) : forall acc,
  exists more, fold_left add_page pages acc = acc +:+ more
    /\ (more = "" <-> Forall (fun p => p = "") pages).
Proof.
  induction pages as [|p pages IH]; intros acc; cbn [fold_left].
  - exists "". rewrite app_empty_r. split; [reflexivity|]. split; [constructor|reflexivity].
  - destruct (IH (add_page acc p)) as (more & E & Hm). rewrite E.
    unfold add_page. destruct p as [|c p]; cbn [truthy].
    + exists more. split; [reflexivity|]. rewrite Hm. split.
      * now constructor.
      * now inversion 1.
    + exists ((String c p +:+ String LF "") +:+ more).
      split; [now rewrite app_assoc_s|]. split; [discriminate|].
      inversion 1; discriminate.
Qed.

Lemma fold_images_prefix (ocr : list string) : forall acc,
  exists more, fold_left add_image ocr acc = acc +:+ more
    /\ (more = "" <-> ocr = []).
Proof.
  induction ocr as [|p ocr IH]; intros acc; cbn [fold_left].
  - exists "". rewrite app_empty_r. split; [reflexivity|]. split; reflexivity.
  - destruct (IH (add_image acc p)) as (more & E & Hm). rewrite E.
    unfold add_image. exists ((p +:+ String LF "") +:+ more).
    split; [now rewrite app_assoc_s|]. split; [|discriminate].
    destruct p; discriminate.
Qed.

Lemma app_nil_inv (a b : string) : a +:+ b = "" -> a = "" /\ b = "".
Proof. destruct a; [now split | discriminate]. Qed.

Lemma process_invoice_error (text : string) :
  process_invoice text = empty_file_error <-> text = "".
Proof.
  split; [|now intros ->].
  destruct text as [|c t]; [reflexivity|]. unfold process_invoice. cbn [truthy negb].
  intros E. pose proof (no_error_mark (normalize_currency (String c t)) "status"
    (or_introl eq_refl)) as N.
  rewrite E in N. discriminate N.
Qed.

End Extraction.


(** X2.  The text [_extract_content] returns has the lines of the pages,
    page after page, and after them the lines the OCR read when the text
    layer has fewer than 50 characters; a page break never joins two
    lines, and the OCR is not consulted for a longer text layer. *)
Theorem extract_content_lines (pages ocr : list string) :
  Core.split_lines (Core._extract_content pages ocr)
  = concat (List.map Core.split_lines pages)
    ++ (if Py.len (Core.text_layer pages) <? 50
        then concat (List.map Core.split_lines ocr) else []).
Proof.
  unfold Core._extract_content. cbv zeta.
  assert (P : Core.split_lines (Core.text_layer pages)
              = concat (List.map Core.split_lines pages))
    by (apply (pages_lines pages ""); now left).
  destruct (Py.len (Core.text_layer pages) <? 50).
  - rewrite <- P. exact (images_lines ocr _ (text_layer_closed pages)).
  - now rewrite app_nil_r.
Qed.

Lemma nothing_read (texts : list string) :
  Forall (fun text => text = "") texts ->
  Core.process_invoice_file texts [] = Core.empty_file_error.
Proof.
  intros H.
  assert (E : forall acc, fold_left add_page texts acc = acc).
  { induction H as [|text texts -> _ IH]; intros acc; [reflexivity|].
    cbn [fold_left]. apply IH. }
  unfold Core.process_invoice_file, Core._extract_content. cbv zeta.
  change (Core.text_layer texts) with (fold_left add_page texts "").
  now rewrite E.
Qed.

(** X3.  [process_invoice] reports the empty file exactly when no page
    has a text layer and the OCR read no image: an image the OCR read,
    even one without text, adds a line feed, and the text is not empty. *)
Theorem empty_file_iff_nothing_read (pages ocr : list string) :
  Core.process_invoice_file pages ocr = Core.empty_file_error
  <-> Forall (fun text => text = "") pages /\ ocr = [].
Proof.
  unfold Core.process_invoice_file. rewrite process_invoice_error.
  unfold Core._extract_content. cbv zeta.
  destruct (fold_pages_prefix pages "") as (more & E & Hm).
  change (fold_left add_page pages "") with (Core.text_layer pages) in E.
  change ("" +:+ more) with more in E.
  destruct (fold_images_prefix ocr (Core.text_layer pages)) as (more' & E' & Hm').
  change (fold_left add_image ocr (Core.text_layer pages))
    with (Core.ocr_layer (Core.text_layer pages) ocr) in E'.
  destruct (Py.len (Core.text_layer pages) <? 50) eqn:L.
  - rewrite E', E. split.
    + intros H. apply app_nil_inv in H as [H1 H2].
      split; [apply Hm; exact H1 | apply Hm'; exact H2].
    + intros [H1 H2]. apply Hm in H1. apply Hm' in H2. now rewrite H1, H2.
  - split.
    + intros H. rewrite H in L. discriminate L.
    + intros [H1 _]. apply Hm in H1. rewrite E, H1 in L. discriminate L.
Qed.

(** ** The vendor, the buyer, the invoice number and the date *)

Section Headings.

Import Py Re Core.

(** The test of the vendor loop: the line, in upper case and without its
    spaces, holds TAXINVOICE or ORIGINAL. *)
Definition title_line (line : string) : bool :=
  let clean := replace " " "" (upper line) in
  contains "TAXINVOICE" clean || contains "ORIGINAL" clean.

Lemma vendor_scan_some (lines : list string) (line : string) :
  vendor_scan lines = Some line ->
  exists i, lines !! i = Some line /\ title_line line = false
    /\ forall j lj, j < i -> lines !! j = Some lj -> title_line lj = true.
Proof.
  induction lines as [|l lines IH]; [discriminate|].
  cbn [vendor_scan]. fold (title_line l). destruct (title_line l) eqn:T.
  - intros H. destruct (IH H) as (i & Hi & Ht & Hb).
    exists (S i). split; [exact Hi|]. split; [exact Ht|].
    intros [|j] lj Hj E.
    + now injection E as <-.
    + apply (Hb j lj); [lia | exact E].
  - intros [= <-]. exists 0. split; [reflexivity|]. split; [exact T|].
    intros j lj Hj. lia.
Qed.


Lemma lookup_firstn (lines : list string) (n i : nat) (line : string) :
  firstn n lines !! i = Some line <-> i < n /\ lines !! i = Some line.
Proof.
  revert n i. induction lines as [|l lines IH]; intros [|n] [|i]; cbn;
    try (split; [discriminate | intros [? ?]; first [lia | discriminate]]).
  - split; [intros E; split; [lia | exact E] | now intros [_ E]].
  - rewrite IH. split; intros [? ?]; split; first [lia | assumption].
Qed.

Lemma plus_class_inv (p : ascii -> bool) s c s' c' :
  matches (Plus (Chr p)) s c s' c' ->
  exists a w, s = String a w +:+ s' /\ p a = true /\ all_in p w = true /\ c' = c.
Proof.
  unfold Plus. intros M. inversion M as [| |? ? ? ? s1 c1 ? ? M1 M2| | | | | | |]; subst.
  inversion M1; subst.
  apply star_class_inv in M2 as (w & -> & Hw & ->).
  now exists a, w.
Qed.

(** A match of the invoice number pattern ends with its second group, a
    non-empty run of the class. *)
Lemma number_matches_group s s' c' :
  matches invoice_number_pattern s [] s' c' ->
  exists v c, c' = (2, v) :: c /\ v <> "" /\ all_in number_char v = true
    /\ exists pre, s = pre +:+ v +:+ s'.
Proof.
  unfold invoice_number_pattern. intros M.
  inversion M as [| |? ? ? ? s1 c1 ? ? M1 M2| | | | | | |]; subst. clear M.
  apply matches_split in M1 as [w1 ->].
  inversion M2 as [| |? ? ? ? s2 c2 ? ? M3 M4| | | | | | |]; subst. clear M2.
  apply matches_split in M3 as [w2 ->].
  inversion M4 as [| |? ? ? ? s3 c3 ? ? M5 M6| | | | | | |]; subst. clear M4.
  apply matches_split in M5 as [w3 ->].
  inversion M6 as [| |? ? ? ? s4 c4 ? ? M7 M8| | | | | | |]; subst. clear M6.
  apply matches_split in M7 as [w4 ->].
  inversion M8 as [| | | | | | | | |? ? ? ? ? ? M9]; subst. clear M8.
  apply plus_class_inv in M9 as (a & w & E & Ha & Hw & ->).
  rewrite E, consumed_app.
  exists (String a w), c4. split; [reflexivity|]. split; [discriminate|].
  split; [cbn [all_in]; now rewrite Ha, Hw|].
  exists (w1 +:+ w2 +:+ w3 +:+ w4). rewrite !app_assoc_s. reflexivity.
Qed.

Lemma number_found_shape (text v : string) :
  number_found text = Some v ->
  v <> "" /\ all_in number_char v = true
  /\ exists pre post, text = pre +:+ v +:+ post.
Proof.
  unfold number_found. destruct (search invoice_number_pattern text) as [m|] eqn:S;
    [|discriminate].
  cbn. intros [= <-].
  apply search_some in S as (pre & E & Hm & _).
  apply match_at_sound in Hm as [_ M].
  apply number_matches_group in M as (v & c & Eg & Hne & Hall & pre' & E').
  unfold group. rewrite Eg. cbn. split; [exact Hne|]. split; [exact Hall|].
  exists (pre +:+ pre'), (rest m). rewrite E, E', !app_assoc_s. reflexivity.
Qed.



Ltac inv_matches :=
  repeat match goal with
  | H : matches Eps _ _ _ _ |- _ => inversion H; subst; clear H
  | H : matches (Chr _) _ _ _ _ |- _ => inversion H; subst; clear H
  | H : matches (Cat _ _) _ _ _ _ |- _ => inversion H; subst; clear H
  | H : matches (Grp _ _) _ _ _ _ |- _ => inversion H; subst; clear H
  end.





Lemma none_of_absent (i : ascii) (v : string) :
  all_in (fun x => negb (has_char x (String i ""))) v = true ->
  has_char i v = false.
Proof.
  induction v as [|b v IH]; [reflexivity|].
  cbn [all_in has_char]. intros H. apply andb_prop in H as [Hb Hv].
  rewrite orb_false_r in Hb. apply negb_true_iff in Hb.
  rewrite Ascii.eqb_sym, Hb. now apply IH.
Qed.

(** A match of the buyer pattern ends with its second group, a non-empty
    run without line feed. *)
Lemma buyer_matches_group s s' c' :
  matches buyer_pattern s [] s' c' ->
  exists v c, c' = (2, v) :: c /\ v <> "" /\ has_char LF v = false
    /\ exists pre, s = pre +:+ v +:+ s'.
Proof.
  unfold buyer_pattern. intros M.
  inversion M as [| |? ? ? ? s1 c1 ? ? M1 M2| | | | | | |]; subst. clear M.
  apply matches_split in M1 as [w1 ->].
  inversion M2 as [| |? ? ? ? s2 c2 ? ? M3 M4| | | | | | |]; subst. clear M2.
  apply matches_split in M3 as [w2 ->].
  inversion M4 as [| |? ? ? ? s3 c3 ? ? M5 M6| | | | | | |]; subst. clear M4.
  apply matches_split in M5 as [w3 ->].
  inversion M6 as [| |? ? ? ? s4 c4 ? ? M7 M8| | | | | | |]; subst. clear M6.
  apply matches_split in M7 as [w4 ->].
  inversion M8 as [| |? ? ? ? s5 c5 ? ? M9 M10| | | | | | |]; subst. clear M8.
  apply matches_split in M9 as [w5 ->].
  inversion M10 as [| | | | | | | | |? ? ? ? ? ? M11]; subst. clear M10.
  unfold NoneOf in M11.
  apply plus_class_inv in M11 as (a & w & E & Ha & Hw & ->).
  rewrite E, consumed_app.
  exists (String a w), c5. split; [reflexivity|]. split; [discriminate|]. split.
  - apply none_of_absent. cbn [all_in]. now rewrite Ha, Hw.
  - exists (w1 +:+ w2 +:+ w3 +:+ w4 +:+ w5). rewrite !app_assoc_s. reflexivity.
Qed.


End Headings.



(** ** Where an amount comes from *)

Section AmountOrigin.

Import Py Re Core PyFloat.

Lemma extract_is_search (lines label_keywords : list string) :
  extract_amount_smart lines label_keywords
  = label_proximity_search label_keywords lines.
Proof.
  unfold extract_amount_smart.
  change (amount_loop lines label_keywords 0 lines)
    with (amount_loop lines label_keywords 0 (drop 0 lines)).
  apply (amount_loop_search lines label_keywords 0).
Qed.

(** The line a value was read from: a keyword line, or the line after a
    keyword line without amount. *)
Definition read_at (label_keywords lines : list string) (i : nat) (v : string)
    : Prop :=
  exists line,
    lines !! i = Some line /\ has_keyword label_keywords line = true
    /\ (last_amount line = Some v
        \/ (last_amount line = None
            /\ exists next_line,
                 lines !! S i = Some next_line
                 /\ contains "%" next_line = false
                 /\ last_amount next_line = Some v)).

Lemma read_at_cons label_keywords line lines i v :
  read_at label_keywords lines i v -> read_at label_keywords (line :: lines) (S i) v.
Proof. intros (l & H1 & H2 & H3). exists l. now repeat split. Qed.

Lemma search_origin (label_keywords lines : list string) (v : string) :
  label_proximity_search label_keywords lines = Some v ->
  exists i, read_at label_keywords lines i v.
Proof.
  induction lines as [|line following IH]; [discriminate |].
  assert (C : label_proximity_search label_keywords following = Some v ->
              exists i, read_at label_keywords (line :: following) i v).
  { intros H. destruct (IH H) as [i Hi]. exists (S i). now apply read_at_cons. }
  cbn [label_proximity_search].
  destruct (has_keyword label_keywords line) eqn:K; [| exact C].
  destruct (contains "%" line && negb (Core.is_some (search decimals_pattern line)));
    [exact C |].
  destruct (last_amount line) as [v1|] eqn:E1.
  - intros [= <-]. exists 0, line. split; [reflexivity|]. split; [exact K|].
    left. exact E1.
  - destruct following as [|next_line more]; [exact C |].
    destruct (contains "%" next_line) eqn:P; [exact C |].
    destruct (last_amount next_line) as [v2|] eqn:E2; [| exact C].
    intros [= <-]. exists 0, line. split; [reflexivity|]. split; [exact K|].
    right. split; [exact E1|]. now exists next_line.
Qed.

Lemma search_no_label (label_keywords lines : list string) :
  Forall (fun line => has_keyword label_keywords line = false) lines ->
  label_proximity_search label_keywords lines = None.
Proof.
  induction 1 as [|line lines K _ IH]; [reflexivity|].
  cbn [label_proximity_search]. now rewrite K.
Qed.

(** A value found in the first lines is not changed by the lines that
    follow. *)
Lemma search_stable (label_keywords lines more : list string) (v : string) :
  label_proximity_search label_keywords lines = Some v ->
  label_proximity_search label_keywords (lines ++ more) = Some v.
Proof.
  induction lines as [|line following IH]; [discriminate |].
  cbn [label_proximity_search app].
  destruct (has_keyword label_keywords line); [| exact IH].
  destruct (contains "%" line && negb (Core.is_some (search decimals_pattern line)));
    [exact IH |].
  destruct (last_amount line) as [v1|] eqn:E1; [intros H; exact H|].
  destruct following as [|next_line rest]; [discriminate |].
  cbn [app].
  destruct (contains "%" next_line); [exact IH |].
  destruct (last_amount next_line) as [v2|]; [intros H; exact H | exact IH].
Qed.



Lemma found_inv (val : option string) (v : string) :
  found val = Some v -> val = Some v.
Proof.
  destruct val as [w|]; [|discriminate]. cbn [found].
  destruct (truthy w); [intros [= ->]; reflexivity | discriminate].
Qed.





End AmountOrigin.

(** X8.  A value [extract_amount_smart] returns was read from a line
    that holds one of the keywords (in any letter case), or from the line
    right after such a line when that line has no amount and the next one
    no percent sign; without a keyword line there is no value. *)
Theorem extract_amount_smart_origin (lines label_keywords : list string) :
  (forall v, Core.extract_amount_smart lines label_keywords = Some v ->
     exists i, read_at label_keywords lines i v)
  /\ (Forall (fun line => Core.has_keyword label_keywords line = false) lines ->
      Core.extract_amount_smart lines label_keywords = None).
Proof.
  rewrite extract_is_search. split.
  - intros v. apply search_origin.
  - apply search_no_label.
Qed.

Lemma extract_amount_smart_origin_witness :
  (exists i, read_at ["CGST"] ["Tax summary"; "cgst @ 9 pct"; "1,234.50"] i "1234.50")
  /\ Core.extract_amount_smart ["Subtotal 100.00"; "SGST 9.00"] ["CGST"] = None.
Proof.
  split.
  - apply (proj1 (extract_amount_smart_origin
                    ["Tax summary"; "cgst @ 9 pct"; "1,234.50"] ["CGST"])).
    reflexivity.
  - apply (proj2 (extract_amount_smart_origin ["Subtotal 100.00"; "SGST 9.00"] ["CGST"])).
    repeat constructor.
Defined.

(** X9.  A value found in a list of lines stays the value when more
    lines follow: the first value in reading order wins. *)
Theorem extract_amount_smart_stable (lines more label_keywords : list string)
    (v : string) :
  Core.extract_amount_smart lines label_keywords = Some v ->
  Core.extract_amount_smart (lines ++ more) label_keywords = Some v.
Proof. rewrite !extract_is_search. apply search_stable. Qed.

Lemma extract_amount_smart_stable_witness :
  Core.extract_amount_smart (["Total 10.00"] ++ ["Total 99.00"]) ["Total"]
  = Some "10.00".
Proof.
  apply (extract_amount_smart_stable ["Total 10.00"] ["Total 99.00"] ["Total"]).
  reflexivity.
Defined.

(** ** What the normalizer keeps and what it removes *)

Section NormalizerFacts.

Import Py Re Core.

(** The characters of a class, in order. *)
Fixpoint keep (p : ascii -> bool) (s : string) : string :=
  match s with
  | EmptyString => EmptyString
  | String c s' => if p c then String c (keep p s') else keep p s'
  end.

Lemma keep_app (p : ascii -> bool) (a b : string) :
  keep p (a +:+ b) = keep p a +:+ keep p b.
Proof.
  induction a as [|c a IH]; [reflexivity|].
  cbn [String.append keep]. rewrite IH. now destruct (p c).
Qed.

(** A replacement whose two texts have no character of a class keeps the
    characters of the class. *)
Lemma keep_replace (p : ascii -> bool) (a : ascii) (old new : string) :
  keep p (String a old) = "" -> keep p new = "" ->
  forall s, keep p (replace (String a old) new s) = keep p s.
Proof.
  intros Ho Hn s.
  remember (String.length s) as n eqn:L.
  revert s L. induction n as [n IH] using lt_wf_ind. intros s L.
  destruct s as [|c s]; [reflexivity|].
  destruct (startswith (String a old) (String c s)) eqn:E.
  - apply startswith_split in E as [r E]. rewrite E.
    rewrite replace_hit, !keep_app, Ho, Hn.
    apply (IH (String.length r)); [|reflexivity].
    rewrite L, E. apply length_split_lt.
  - rewrite (replace_miss _ _ _ _ E). cbn [keep].
    rewrite (IH (String.length s)); [reflexivity | rewrite L; cbn; lia | reflexivity].
Qed.

Lemma startswith_app_l (p a b : string) :
  startswith p a = true -> startswith p (a +:+ b) = true.
Proof.
  revert a. induction p as [|x p IH]; intros [|y a]; cbn; try easy.
  intros H. apply andb_prop in H as [-> H]. now apply IH.
Qed.

Lemma contains_app_l (p a b : string) :
  contains p a = true -> contains p (a +:+ b) = true.
Proof.
  induction a as [|y a IH].
  - cbn. rewrite orb_false_r. destruct p; [|discriminate].
    intros _. now destruct b.
  - intros H. cbn [contains] in H. apply orb_true_iff in H as [H|H].
    + cbn [String.append contains].
      change (String y (a +:+ b)) with (String y a +:+ b).
      now rewrite (startswith_app_l _ _ b H).
    + cbn [String.append contains]. rewrite (IH H). apply orb_true_r.
Qed.

(** [part] stands in [s]. *)
Definition within (part s : string) : Prop :=
  exists pre post, s = pre +:+ part +:+ post.

Lemma contains_within (p part s : string) :
  within part s -> contains p part = true -> contains p s = true.
Proof.
  intros (pre & post & ->) H. apply contains_app_r. now apply contains_app_l.
Qed.

Lemma within_refl (s : string) : within s s.
Proof. exists "", "". now rewrite app_empty_r. Qed.

Lemma within_trans (a b c : string) : within a b -> within b c -> within a c.
Proof.
  intros (p1 & q1 & ->) (p2 & q2 & ->).
  exists (p2 +:+ p1), (q1 +:+ q2). now rewrite !app_assoc_s.
Qed.

Lemma lstrip_within (s : string) : within (lstrip s) s.
Proof.
  induction s as [|c s IH]; [apply within_refl|].
  cbn [lstrip]. destruct (is_space c); [|apply within_refl].
  destruct IH as (pre & post & E). exists (String c pre), post.
  cbn [String.append]. now rewrite <- E.
Qed.

Lemma rstrip_within (s : string) : within (rstrip s) s.
Proof.
  assert (P : exists post, s = rstrip s +:+ post).
  { induction s as [|c s [post E]]; [now exists ""|].
    cbn [rstrip]. destruct (rstrip s) as [|b r].
    - destruct (is_space c); [now exists (String c s) | now exists s].
    - exists post. cbn [String.append] in *. now rewrite <- E. }
  destruct P as [post E]. now exists "", post.
Qed.

Lemma strip_within (s : string) : within (strip s) s.
Proof. eapply within_trans; [apply rstrip_within | apply lstrip_within]. Qed.

Lemma split_from_within (sep : ascii) (s : string) : forall cur field,
  In field (split_from sep cur s) -> within field (cur +:+ s).
Proof.
  induction s as [|c s IH]; cbn [split_from]; intros cur field H.
  - destruct H as [<-|[]]. rewrite app_empty_r. apply within_refl.
  - destruct (Ascii.eqb c sep).
    + destruct H as [<-|H].
      * exists "", (String c s). reflexivity.
      * destruct (IH "" field H) as (pre & post & E). cbn [String.append] in E.
        exists (cur +:+ String c pre), post. rewrite E, !app_assoc_s. reflexivity.
    + specialize (IH _ field H). now rewrite app_assoc_s in IH.
Qed.

Lemma line_within (text line : string) :
  In line (split_lines text) -> within line text.
Proof.
  intros H. apply split_lines_line in H as (field & H & -> & _).
  eapply within_trans; [apply strip_within|].
  exact (split_from_within LF text "" field H).
Qed.

Lemma lookup_In (lines : list string) (i : nat) (line : string) :
  lines !! i = Some line -> In line lines.
Proof.
  revert i. induction lines as [|l lines IH]; intros [|i] E; try discriminate E.
  - injection E as ->. now left.
  - right. exact (IH i E).
Qed.

(** A field of the record is a default or stands in the text. *)
Lemma vendor_found_within (text v : string) :
  vendor_found text = Some v -> within v text.
Proof.
  unfold vendor_found. intros H.
  apply vendor_scan_some in H as (i & Hi & _).
  apply lookup_firstn in Hi as [_ Hi].
  apply line_within. exact (lookup_In _ _ _ Hi).
Qed.

Lemma buyer_found_within (text v : string) :
  buyer_found text = Some v -> within v text.
Proof.
  unfold buyer_found. destruct (search buyer_pattern text) as [m|] eqn:S;
    [|discriminate].
  cbn [fmap option_fmap option_map]. intros [= <-].
  apply search_some in S as (pre & E & Hm & _).
  apply match_at_sound in Hm as [_ M].
  apply buyer_matches_group in M as (v & c & Eg & _ & _ & pre' & E').
  unfold group. rewrite Eg.
  change (within (strip v) text).
  eapply within_trans; [apply strip_within|].
  exists (pre +:+ pre'), (rest m). rewrite E, E', !app_assoc_s. reflexivity.
Qed.

Lemma absent_default (p dflt text : string) (found : option string) :
  contains p dflt = false -> contains p text = false ->
  (forall v, found = Some v -> within v text) ->
  contains p (default dflt found) = false.
Proof.
  intros Hd Ht Hw. destruct found as [v|]; [|exact Hd].
  cbn [default from_option id].
  destruct (contains p v) eqn:E; [|reflexivity].
  now rewrite (contains_within p v text (Hw v eq_refl) E) in Ht.
Qed.

End NormalizerFacts.

(** X11.  The normalizer leaves the digits and the thousands separators
    of a text as they are, and in their order. *)
Theorem normalize_currency_keeps_digits (text : string) :
  let numeric := fun c => Py.is_digit c || Ascii.eqb c "," in
  keep numeric (Core.normalize_currency text) = keep numeric text.
Proof.
  cbv zeta. unfold Core.normalize_currency, Core.RUPEE, Core.RUPEE_MISDECODED.
  now rewrite !keep_replace.
Qed.

(** X12.  No currency spelling is left in a normalized text, and a text
    without any of them is returned as it is. *)
Theorem normalize_currency_removes_spellings (text : string) :
  Forall (fun p => Py.contains p (Core.normalize_currency text) = false)
         currency_spellings
  /\ (Forall (fun p => Py.contains p text = false) currency_spellings ->
      Core.normalize_currency text = text).
Proof.
  split.
  - apply List.Forall_forall. intros p H. now apply normalize_currency_clean.
  - unfold currency_spellings. intros H.
    inversion H as [|? ? H1 G1]; subst. inversion G1 as [|? ? H2 G2]; subst.
    inversion G2 as [|? ? H3 G3]; subst. inversion G3 as [|? ? H4 _]; subst.
    unfold Core.normalize_currency.
    now rewrite (replace_absent _ _ _ H1), (replace_absent _ _ _ H2),
      (replace_absent _ _ _ H3), (replace_absent _ _ _ H4).
Qed.

Lemma normalize_currency_removes_spellings_witness :
  Core.normalize_currency "Total INR 1,250.00" = "Total INR 1,250.00".
Proof.
  apply (proj2 (normalize_currency_removes_spellings "Total INR 1,250.00")).
  repeat constructor.
Defined.

(** X13.  The vendor, the buyer and the invoice number that
    [process_invoice] reports hold no currency spelling: each is a default
    or a part of the normalized text. *)
Theorem process_invoice_names_normalized (text : string) :
  text <> "" ->
  Forall (fun key =>
            exists v, Core.process_invoice text !! key = Some v
              /\ Forall (fun p => Py.contains p v = false) currency_spellings)
         ["vendor_name"; "buyer_name"; "invoice_number"].
Proof.
  intros Hne. destruct text as [|c t]; [contradiction|].
  unfold Core.process_invoice. cbn [Py.truthy negb].
  set (clean := Core.normalize_currency (String c t)).
  assert (A : forall dflt found,
             Forall (fun p => Py.contains p dflt = false) currency_spellings ->
             (forall v, found = Some v -> within v clean) ->
             Forall (fun p => Py.contains p (default dflt found) = false)
                    currency_spellings).
  { intros dflt found Hd Hw. apply List.Forall_forall. intros p Hp.
    apply (absent_default p dflt clean).
    - revert p Hp. now apply List.Forall_forall.
    - now apply normalize_currency_clean.
    - exact Hw. }
  repeat constructor.
  - eexists. split; [apply vendor_name_value|].
    apply A; [repeat constructor | apply vendor_found_within].
  - eexists. split; [apply buyer_name_value|].
    apply A; [repeat constructor | apply buyer_found_within].
  - eexists. split; [apply invoice_number_value|].
    apply A; [repeat constructor|].
    intros v H. apply number_found_shape in H as (_ & _ & H). exact H.
Qed.

Lemma process_invoice_names_normalized_witness :
  Forall (fun key =>
            exists v, Core.process_invoice "Rs. Traders" !! key = Some v
              /\ Forall (fun p => Py.contains p v = false) currency_spellings)
         ["vendor_name"; "buyer_name"; "invoice_number"].
Proof.
  apply (process_invoice_names_normalized "Rs. Traders"). discriminate.
Defined.
(** ** The file hash and the CSV guard *)

Section FileHashFacts.

Import Py Security.

Variable sha256 : Type.
Variable sha256_new : sha256.
Variable update : sha256 -> bytes -> sha256.
Variable hexdigest : sha256 -> string.

(** The contract of the hash object: feeding the data in pieces is
    feeding it at once, and the empty piece changes nothing. *)
Hypothesis update_app : forall h a b, update (update h a) b = update h (a +:+ b).
Hypothesis update_empty : forall h, update h "" = h.

Lemma take_drop (n : nat) (b : bytes) : Re.take n b +:+ drop n b = b.
Proof.
  revert b. induction n as [|n IH]; intros [|c b]; cbn; try reflexivity.
  now rewrite IH.
Qed.

Lemma drop_length (n : nat) (c : ascii) (b : bytes) :
  String.length (drop (S n) (String c b)) <= String.length b.
Proof.
  cbn [drop]. revert b. induction n as [|n IH]; intros b; [cbn; lia|].
  destruct b as [|x b]; [cbn; lia|]. cbn [drop String.length].
  specialize (IH b). lia.
Qed.

Lemma read_loop_all (size : nat) : forall fuel f h,
  String.length f <= fuel ->
  read_loop sha256 update (S size) fuel f h = update h f.
Proof.
  induction fuel as [|fuel IH]; intros f h L.
  - destruct f; [|cbn in L; lia]. cbn. now rewrite update_empty.
  - destruct f as [|c f]; [cbn; now rewrite update_empty|].
    cbn [read_loop Re.take truthy].
    rewrite IH.
    + rewrite update_app.
      change (String c (Re.take size f)) with (Re.take (S size) (String c f)).
      now rewrite take_drop.
    + pose proof (drop_length size c f). cbn [String.length] in L. lia.
Qed.

End FileHashFacts.

(** X14.  [get_file_hash] reads the file in blocks of 8192 bytes and
    gives the digest of the whole content: for a hash object that may be
    fed in pieces, the blocks make no difference, whatever the length of the
    file, the empty file included. *)
Theorem get_file_hash_whole_content (sha256 : Type) (sha256_new : sha256)
    (update : sha256 -> Security.bytes -> sha256) (hexdigest : sha256 -> string)
    (content : Security.bytes) :
  (forall h a b, update (update h a) b = update h (a +:+ b)) ->
  (forall h, update h "" = h) ->
  Security.get_file_hash sha256 sha256_new update hexdigest content
  = hexdigest (update sha256_new content).
Proof.
  intros Happ Hnil. unfold Security.get_file_hash. f_equal.
  unfold Security.CHUNK.
  replace (N.to_nat 8192) with (S (N.to_nat 8191)) by (now rewrite <- N2Nat.inj_succ).
  now apply read_loop_all.
Qed.

(** A hash object for the examples: its state is the data fed so far. *)
Definition example_hash (content : Security.bytes) : string :=
  Security.get_file_hash string "" String.append (fun h => h) content.

Lemma get_file_hash_whole_content_witness :
  example_hash (String.concat "" (repeat "0123456789" 2000))
  = String.concat "" (repeat "0123456789" 2000).
Proof.
  apply (get_file_hash_whole_content string "" String.append (fun h => h)).
  - intros h a b. apply app_assoc_s.
  - apply app_empty_r.
Defined.

(** X15.  [sanitize_input] never returns a text that starts with =, +, -
    or @, and it leaves a text it has returned as it is. *)
Theorem sanitize_input_guards (text : string) :
  existsb (fun prefix => Py.startswith prefix (Security.sanitize_input text))
          ["="; "+"; "-"; "@"] = false
  /\ Security.sanitize_input (Security.sanitize_input text)
     = Security.sanitize_input text.
Proof.
  assert (G : existsb (fun prefix => Py.startswith prefix (Security.sanitize_input text))
                ["="; "+"; "-"; "@"] = false).
  { unfold Security.sanitize_input. destruct text as [|c t]; [reflexivity|].
    cbn [Py.truthy andb].
    destruct (existsb (fun prefix => Py.startswith prefix (String c t)) _) eqn:E;
      [reflexivity | exact E]. }
  split; [exact G|].
  unfold Security.sanitize_input at 1. rewrite G. now rewrite andb_false_r.
Qed.
(** ** The export and the worker *)

Section ExportFacts.

Import Storage.

Variable json_dumps : gmap string string -> string.
Variable F : Security.fernet.

Lemma export_count (d : db) : fst (export_to_csv d) = List.length (rows d).
Proof.
  unfold export_to_csv, read_sql_query. cbn [snd].
  destruct (rows d); [reflexivity|]. cbn [List.map fst List.length].
  now rewrite List.length_map.
Qed.

Lemma export_nonempty (d : db) (r : row) :
  export_to_csv (Db (rows d ++ [r]) (S (last_id d)))
  = (S (List.length (rows d)),
     Some (export_columns, List.map export_row (rows d) ++ [export_row r])).
Proof.
  unfold export_to_csv, read_sql_query. cbn [snd rows].
  rewrite List.map_app. cbn [List.map].
  destruct (List.map export_row (rows d) ++ [export_row r]) as [|x l] eqn:E.
  - now destruct (List.map export_row (rows d)).
  - rewrite <- E, List.length_app, List.length_map. cbn [List.length].
    f_equal. lia.
Qed.

End ExportFacts.

(** X16.  [export_to_csv] returns the number of rows of the table; with
    no row it returns 0 and writes no file.  After [save_invoice] has
    inserted a document the export has one more row, the last one, with the
    file name, the nine fields of the record ([save_invoice]'s defaults for
    the missing ones), the status and the time; after a rejected duplicate
    it is what it was.  The hash and the encrypted record are not among
    the columns. *)
Theorem export_to_csv_after_save (json_dumps : gmap string string -> string)
    (F : Security.fernet) (e : Security.entropy F) (now : string)
    (d : Storage.db) (filename h : string) (data : gmap string string) :
  fst (Storage.export_to_csv d) = List.length (Storage.rows d)
  /\ Storage.export_to_csv Storage.empty_db = (0, None)
  /\ (let '(saved, d') := Storage.save_invoice json_dumps F e now d filename h data in
      Storage.export_to_csv d'
      = if saved
        then (S (List.length (Storage.rows d)),
              Some (Storage.export_columns,
                    List.map Storage.export_row (Storage.rows d)
                    ++ [[filename;
                         Storage.get data "invoice_number" "N/A";
                         Storage.get data "invoice_date" "N/A";
                         Storage.get data "vendor_name" "Unknown";
                         Storage.get data "vendor_gstin" "N/A";
                         Storage.get data "buyer_name" "Unknown";
                         Storage.get data "cgst" "0";
                         Storage.get data "sgst" "0";
                         Storage.get data "grand_total" "0";
                         Storage.get data "currency" "INR";
                         "PROCESSED";
                         now]]))
        else Storage.export_to_csv d).
Proof.
  split; [apply export_count|]. split; [reflexivity|].
  unfold Storage.save_invoice. cbv zeta.
  destruct (Storage.hash_present h d); [reflexivity|].
  now rewrite export_nonempty.
Qed.

(** X17.  For a record [_parse_deep_fields] built, the row [save_invoice]
    inserts holds the nine fields of the record as they are: none of
    [save_invoice]'s own defaults is used. *)
Theorem save_invoice_parsed_fields (json_dumps : gmap string string -> string)
    (F : Security.fernet) (e : Security.entropy F) (now : string)
    (d : Storage.db) (filename h text : string) :
  Storage.hash_present h d = false ->
  let data := Core._parse_deep_fields text in
  exists r,
    Storage.save_invoice json_dumps F e now d filename h data
    = (true, Storage.Db (Storage.rows d ++ [r]) (S (Storage.last_id d)))
    /\ data !! "invoice_number" = Some (Storage.invoice_number r)
    /\ data !! "invoice_date" = Some (Storage.invoice_date r)
    /\ data !! "vendor_name" = Some (Storage.vendor_name r)
    /\ data !! "vendor_gstin" = Some (Storage.vendor_gstin r)
    /\ data !! "buyer_name" = Some (Storage.buyer_name r)
    /\ data !! "cgst" = Some (Storage.cgst r)
    /\ data !! "sgst" = Some (Storage.sgst r)
    /\ data !! "grand_total" = Some (Storage.grand_total r)
    /\ data !! "currency" = Some (Storage.currency r).
Proof.
  intros Hh data. unfold Storage.save_invoice. cbv zeta. rewrite Hh.
  eexists. split; [reflexivity|].
  cbn [Storage.invoice_number Storage.invoice_date Storage.vendor_name
       Storage.vendor_gstin Storage.buyer_name Storage.cgst Storage.sgst
       Storage.grand_total Storage.currency].
  pose proof (fields_present text) as P. fold data in P.
  unfold field_names in P.
  repeat match goal with
  | H : Forall _ (_ :: _) |- _ => inversion H; subst; clear H
  end.
  unfold Storage.get.
  repeat match goal with
  | H : is_Some (data !! _) |- _ => destruct H as [? ->]
  end.
  repeat split.
Qed.

Lemma save_invoice_parsed_fields_witness :
  exists r,
    example_save Storage.empty_db "a.pdf" "9f86d0"
      (Core._parse_deep_fields "Acme Corp")
    = (true, Storage.Db ([] ++ [r]) 1)
    /\ Core._parse_deep_fields "Acme Corp" !! "invoice_number"
       = Some (Storage.invoice_number r)
    /\ Core._parse_deep_fields "Acme Corp" !! "invoice_date"
       = Some (Storage.invoice_date r)
    /\ Core._parse_deep_fields "Acme Corp" !! "vendor_name"
       = Some (Storage.vendor_name r)
    /\ Core._parse_deep_fields "Acme Corp" !! "vendor_gstin"
       = Some (Storage.vendor_gstin r)
    /\ Core._parse_deep_fields "Acme Corp" !! "buyer_name"
       = Some (Storage.buyer_name r)
    /\ Core._parse_deep_fields "Acme Corp" !! "cgst" = Some (Storage.cgst r)
    /\ Core._parse_deep_fields "Acme Corp" !! "sgst" = Some (Storage.sgst r)
    /\ Core._parse_deep_fields "Acme Corp" !! "grand_total"
       = Some (Storage.grand_total r)
    /\ Core._parse_deep_fields "Acme Corp" !! "currency"
       = Some (Storage.currency r).
Proof.
  apply (save_invoice_parsed_fields example_dumps marked_cipher tt
           "2024-01-01 10:00" Storage.empty_db "a.pdf" "9f86d0" "Acme Corp").
  reflexivity.
Defined.
Section WorkerFacts.

Import Ui.

Variable basename : string -> string.
Variable json_dumps : gmap string string -> string.
Variable F : Security.fernet.
Variable sha256 : Type.
Variable sha256_new : sha256.
Variable update : sha256 -> Security.bytes -> sha256.
Variable hexdigest : sha256 -> string.

Local Abbreviation run_file := (Ui.run_file basename json_dumps F sha256 sha256_new update hexdigest).
Local Abbreviation run := (Ui.run basename json_dumps F sha256 sha256_new update hexdigest).
Local Abbreviation get_file_hash := (Security.get_file_hash sha256 sha256_new update hexdigest).

Definition name_of (s : signal) : string := fst (fst s).
Definition vendor_of (s : signal) : string := snd (fst s).
Definition status_of (s : signal) : string := snd s.

Definition processed (s : signal) : bool := String.eqb (status_of s) "Processed".

(** The two ways a turn of the loop ends: the table is as it was and the
    status is Duplicate or Error, or a row was inserted and the status is
    Processed. *)
Lemma run_file_cases (d : Storage.db) (doc : document F) :
  let '(d', s) := run_file d doc in
  name_of s = basename (path F doc)
  /\ ((d' = d /\ processed s = false
       /\ (status_of s = "Duplicate" \/ status_of s = "Error"))
      \/ (exists r, d' = Storage.Db (Storage.rows d ++ [r]) (S (Storage.last_id d))
            /\ Storage.filename r = name_of s
            /\ Some (Storage.file_hash r) = get_file_hash <$> content F doc
            /\ Storage.hash_present (Storage.file_hash r) d = false
            /\ status_of s = "Processed")).
Proof.
  unfold Ui.run_file. cbv zeta.
  destruct (content F doc) as [bytes|]; [|split; [reflexivity|]; left; auto].
  destruct (pages F doc) as [texts|]; [|split; [reflexivity|]; left; auto].
  unfold Storage.save_invoice. cbv zeta.
  destruct (Storage.hash_present (get_file_hash bytes) d) eqn:H.
  - split; [reflexivity|]. left. auto.
  - split; [reflexivity|]. right. eexists. split; [reflexivity|].
    cbn [Storage.filename Storage.file_hash]. auto.
Qed.

Lemma run_cons (d : Storage.db) (doc : document F) (files : list (document F)) :
  run d (doc :: files)
  = (fst (run (fst (run_file d doc)) files),
     snd (run_file d doc) :: snd (run (fst (run_file d doc)) files)).
Proof.
  cbn [Ui.run]. destruct (run_file d doc) as [d' s]. cbn [fst snd].
  now destruct (run d' files).
Qed.

Lemma run_names (files : list (document F)) : forall d,
  List.map name_of (snd (run d files))
  = List.map (fun doc => basename (path F doc)) files.
Proof.
  induction files as [|doc files IH]; intros d; [reflexivity|].
  rewrite run_cons. cbn [snd List.map]. rewrite IH. f_equal.
  pose proof (run_file_cases d doc) as C. destruct (run_file d doc) as [d' s].
  now destruct C.
Qed.

Lemma run_statuses (files : list (document F)) : forall d,
  Forall (fun s => In (status_of s) ["Processed"; "Duplicate"; "Error"])
         (snd (run d files)).
Proof.
  induction files as [|doc files IH]; intros d; [constructor|].
  rewrite run_cons. cbn [snd]. constructor; [|apply IH].
  pose proof (run_file_cases d doc) as C. destruct (run_file d doc) as [d' s].
  cbn [snd]. destruct C as [_ [(_ & _ & [-> | ->]) | (r & _ & _ & _ & _ & ->)]];
    cbn; auto.
Qed.

Lemma run_rows (files : list (document F)) : forall d,
  exists new,
    Storage.rows (fst (run d files)) = Storage.rows d ++ new
    /\ List.map Storage.filename new
       = List.map name_of (List.filter processed (snd (run d files))).
Proof.
  induction files as [|doc files IH]; intros d.
  - exists []. now rewrite app_nil_r.
  - rewrite run_cons. cbn [fst snd].
    pose proof (run_file_cases d doc) as C. destruct (run_file d doc) as [d' s].
    cbn [fst snd]. destruct (IH d') as (new & E & N). rewrite E.
    destruct C as [_ [(-> & P & _) | (r & -> & Hn & _ & _ & P)]].
    + exists new. split; [reflexivity|]. cbn [List.filter]. now rewrite P.
    + exists (r :: new). cbn [Storage.rows]. split; [now rewrite <- app_assoc|].
      cbn [List.filter]. unfold processed at 1. rewrite P. cbn [String.eqb Ascii.eqb].
      cbn [List.map]. now rewrite Hn, N.
Qed.

Lemma run_file_unique (d : Storage.db) (doc : document F) :
  unique_hashes d -> unique_hashes (fst (run_file d doc)).
Proof.
  intros U. pose proof (run_file_cases d doc) as C.
  destruct (run_file d doc) as [d' s]. cbn [fst].
  destruct C as [_ [(-> & _) | (r & -> & _ & _ & H & _)]]; [exact U|].
  unfold unique_hashes in *. cbn [Storage.rows].
  rewrite List.map_app. cbn [List.map].
  apply NoDup_app. split; [exact U|]. split.
  - intros x Hx Hx'. apply list_elem_of_singleton in Hx'. subst x.
    now apply hash_absent_not_in in H.
  - apply NoDup_singleton.
Qed.

Lemma run_unique (files : list (document F)) : forall d,
  unique_hashes d -> unique_hashes (fst (run d files)).
Proof.
  induction files as [|doc files IH]; intros d U; [exact U|].
  rewrite run_cons. cbn [fst]. apply IH. now apply run_file_unique.
Qed.

End WorkerFacts.
(** X18.  [Worker.run] emits one progress signal for each file of the
    batch, in the order of the batch and under the base name of its path,
    whatever happens to the file; the status is Processed, Duplicate or
    Error. *)
Theorem run_reports_every_file (basename : string -> string)
    (json_dumps : gmap string string -> string) (F : Security.fernet)
    (sha256 : Type) (sha256_new : sha256)
    (update : sha256 -> Security.bytes -> sha256) (hexdigest : sha256 -> string)
    (d : Storage.db) (files : list (Ui.document F)) :
  let signals :=
    snd (Ui.run basename json_dumps F sha256 sha256_new update hexdigest d files) in
  List.map name_of signals = List.map (fun doc => basename (Ui.path F doc)) files
  /\ Forall (fun s => In (status_of s) ["Processed"; "Duplicate"; "Error"]) signals.
Proof. split; [apply run_names | apply run_statuses]. Qed.

(** X19.  [Worker.run] only appends to the table: the rows it adds are
    those of the files it reports as Processed, in that order, and the
    files reported as Duplicate or Error add none. *)
Theorem run_appends_processed (basename : string -> string)
    (json_dumps : gmap string string -> string) (F : Security.fernet)
    (sha256 : Type) (sha256_new : sha256)
    (update : sha256 -> Security.bytes -> sha256) (hexdigest : sha256 -> string)
    (d : Storage.db) (files : list (Ui.document F)) :
  let result :=
    Ui.run basename json_dumps F sha256 sha256_new update hexdigest d files in
  exists new,
    Storage.rows (fst result) = Storage.rows d ++ new
    /\ List.map Storage.filename new
       = List.map name_of (List.filter processed (snd result)).
Proof. apply run_rows. Qed.

(** X20.  A batch keeps the content hashes of the table pairwise
    distinct, also when the batch holds the same file more than once. *)
Theorem run_keeps_hashes_unique (basename : string -> string)
    (json_dumps : gmap string string -> string) (F : Security.fernet)
    (sha256 : Type) (sha256_new : sha256)
    (update : sha256 -> Security.bytes -> sha256) (hexdigest : sha256 -> string)
    (d : Storage.db) (files : list (Ui.document F)) :
  unique_hashes d ->
  unique_hashes
    (fst (Ui.run basename json_dumps F sha256 sha256_new update hexdigest d files)).
Proof. apply run_unique. Qed.

(** A worker for the examples: paths are file names, the hash object is
    [example_hash]'s, the cipher is [marked_cipher]. *)
Definition example_run :=
  Ui.run (fun path => path) example_dumps marked_cipher
         string "" String.append (fun h => h).

Definition example_run_file :=
  Ui.run_file (fun path => path) example_dumps marked_cipher
              string "" String.append (fun h => h).

(** A scanned page the OCR could not read, and an invoice with a text
    layer. *)
Definition blank_scan (path : string) : Ui.document marked_cipher :=
  Ui.Document marked_cipher path (Some "%PDF-1.4 scan") (Some [""]) []
              tt "2024-01-01 10:00".

Definition acme_invoice (path : string) : Ui.document marked_cipher :=
  Ui.Document marked_cipher path (Some "%PDF-1.4 acme")
              (Some ["Acme Corp"; "Grand Total 118.00"]) [] tt "2024-01-01 10:05".

Lemma run_keeps_hashes_unique_witness :
  unique_hashes
    (fst (example_run Storage.empty_db
            [acme_invoice "a.pdf"; acme_invoice "copy.pdf"; blank_scan "b.pdf"])).
Proof.
  apply (run_keeps_hashes_unique (fun path => path) example_dumps marked_cipher
           string "" String.append (fun h => h) Storage.empty_db).
  constructor.
Defined.

(** X21.  A readable file from which no text is recovered is not
    reported as an error: the worker stores the record of
    [process_invoice], which has none of the fields, so the row holds
    [save_invoice]'s defaults (the amounts read 0, not 0.00) under the
    status PROCESSED, and the signal says Processed with vendor Unknown. *)
Theorem run_file_empty_document (basename : string -> string)
    (json_dumps : gmap string string -> string) (F : Security.fernet)
    (sha256 : Type) (sha256_new : sha256)
    (update : sha256 -> Security.bytes -> sha256) (hexdigest : sha256 -> string)
    (d : Storage.db) (doc : Ui.document F) (bytes : Security.bytes)
    (texts : list string) :
  Ui.content F doc = Some bytes ->
  Ui.pages F doc = Some texts ->
  Forall (fun text => text = "") texts ->
  Ui.ocr F doc = [] ->
  Storage.hash_present
    (Security.get_file_hash sha256 sha256_new update hexdigest bytes) d = false ->
  exists r,
    Ui.run_file basename json_dumps F sha256 sha256_new update hexdigest d doc
    = (Storage.Db (Storage.rows d ++ [r]) (S (Storage.last_id d)),
       (basename (Ui.path F doc), "Unknown", "Processed"))
    /\ Storage.export_row r
       = [basename (Ui.path F doc); "N/A"; "N/A"; "Unknown"; "N/A"; "Unknown";
          "0"; "0"; "0"; "INR"; "PROCESSED"; Ui.now F doc].
Proof.
  intros Hc Hp Ht Ho Hh. unfold Ui.run_file. cbv zeta. rewrite Hc, Hp, Ho.
  assert (E : Core.process_invoice_file texts [] = Core.empty_file_error)
    by (now apply nothing_read).
  rewrite E. unfold Storage.save_invoice. cbv zeta. rewrite Hh.
  eexists. split; reflexivity.
Qed.

Lemma run_file_empty_document_witness :
  exists r,
    example_run_file Storage.empty_db (blank_scan "b.pdf")
    = (Storage.Db ([] ++ [r]) 1, ("b.pdf", "Unknown", "Processed"))
    /\ Storage.export_row r
       = ["b.pdf"; "N/A"; "N/A"; "Unknown"; "N/A"; "Unknown";
          "0"; "0"; "0"; "INR"; "PROCESSED"; "2024-01-01 10:00"].
Proof.
  apply (run_file_empty_document (fun path => path) example_dumps marked_cipher
           string "" String.append (fun h => h) Storage.empty_db
           (blank_scan "b.pdf") "%PDF-1.4 scan" [""]);
    first [reflexivity | repeat constructor].
Defined.

(** X22.  Once the worker has handled a file, a file with the same bytes
    is reported as Duplicate and leaves the table as it is, under whatever
    name and whatever text is read from it. *)
Theorem run_file_same_content (basename : string -> string)
    (json_dumps : gmap string string -> string) (F : Security.fernet)
    (sha256 : Type) (sha256_new : sha256)
    (update : sha256 -> Security.bytes -> sha256) (hexdigest : sha256 -> string)
    (d : Storage.db) (doc doc' : Ui.document F) (bytes : Security.bytes)
    (texts texts' : list string) :
  Ui.content F doc = Some bytes -> Ui.pages F doc = Some texts ->
  Ui.content F doc' = Some bytes -> Ui.pages F doc' = Some texts' ->
  let run_file :=
    Ui.run_file basename json_dumps F sha256 sha256_new update hexdigest in
  let d1 := fst (run_file d doc) in
  fst (run_file d1 doc') = d1
  /\ status_of (snd (run_file d1 doc')) = "Duplicate"
  /\ name_of (snd (run_file d1 doc')) = basename (Ui.path F doc').
Proof.
  intros Hc Hp Hc' Hp'. cbv zeta.
  set (h := Security.get_file_hash sha256 sha256_new update hexdigest bytes).
  set (d1 := fst (Ui.run_file basename json_dumps F sha256 sha256_new update
                    hexdigest d doc)).
  assert (P : Storage.hash_present h d1 = true).
  { subst d1. unfold Ui.run_file. cbv zeta. rewrite Hc, Hp. fold h.
    unfold Storage.save_invoice. cbv zeta.
    destruct (Storage.hash_present h d) eqn:H; cbn [fst]; [exact H|].
    rewrite hash_present_app. cbn [Storage.file_hash].
    now rewrite String.eqb_refl, orb_true_r. }
  clearbody d1.
  unfold Ui.run_file. cbv zeta. rewrite Hc', Hp'. fold h.
  unfold Storage.save_invoice. cbv zeta. rewrite P. now cbn.
Qed.

Lemma run_file_same_content_witness :
  let d1 := fst (example_run_file Storage.empty_db (acme_invoice "a.pdf")) in
  fst (example_run_file d1 (acme_invoice "copy.pdf")) = d1
  /\ status_of (snd (example_run_file d1 (acme_invoice "copy.pdf"))) = "Duplicate"
  /\ name_of (snd (example_run_file d1 (acme_invoice "copy.pdf"))) = "copy.pdf".
Proof.
  apply (run_file_same_content (fun path => path) example_dumps marked_cipher
           string "" String.append (fun h => h) Storage.empty_db
           (acme_invoice "a.pdf") (acme_invoice "copy.pdf") "%PDF-1.4 acme"
           ["Acme Corp"; "Grand Total 118.00"] ["Acme Corp"; "Grand Total 118.00"]);
    reflexivity.
Defined.
(** ** The keys of a record, the labels of the total and the stored record *)

Section RecordFacts.

Import Py Re Core.

Implicit Types (data : gmap string string) (key : string).

Ltac other_key H :=
  let E := fresh in
  intros E; apply H; rewrite <- E; unfold field_names; cbn [app];
  repeat first [apply list_elem_of_here | apply list_elem_of_further].

(** No key but the nine fields and [vendor] is set. *)
Lemma parse_other_absent (text : string) key :
  key ∉ field_names ++ ["vendor"] -> _parse_deep_fields text !! key = None.
Proof.
  intros H. unfold _parse_deep_fields. cbv zeta.
  rewrite lookup_insert_ne by other_key H.
  rewrite set_fallback_other by other_key H.
  rewrite set_total_other by other_key H.
  rewrite !assign_other by other_key H.
  rewrite !assign_match_other by other_key H.
  rewrite set_gstin_other by other_key H.
  rewrite set_vendor_other by other_key H.
  unfold defaults.
  rewrite !lookup_insert_ne by other_key H.
  apply lookup_empty.
Qed.

(** The labels of the total are tried in their order; the first that
    gives a value wins. *)
Lemma first_total_priority (lines keys : list string) (v : string) :
  first_total lines keys = Some v ->
  exists i key,
    keys !! i = Some key
    /\ extract_amount_smart lines [key] = Some v
    /\ forall j kj, j < i -> keys !! j = Some kj ->
         extract_amount_smart lines [kj] = None.
Proof.
  induction keys as [|key keys IH]; [discriminate|].
  cbn [first_total].
  destruct (found (extract_amount_smart lines [key])) as [w|] eqn:E.
  - intros [= <-]. apply found_inv in E. exists 0, key. split; [reflexivity|].
    split; [exact E|]. intros j kj Hj. lia.
  - intros H. destruct (IH H) as (i & k & Hi & Hv & Hb).
    exists (S i), k. split; [exact Hi|]. split; [exact Hv|].
    intros [|j] kj Hj Ej.
    + injection Ej as <-.
      destruct (extract_amount_smart lines [key]) as [u|] eqn:Eu; [|reflexivity].
      destruct (extract_parses _ _ _ Eu) as [_ Hne].
      cbn [found] in E. now rewrite (truthy_true u Hne) in E.
    + apply (Hb j kj); [lia | exact Ej].
Qed.

Lemma first_total_none (lines keys : list string) :
  first_total lines keys = None ->
  forall key, In key keys -> extract_amount_smart lines [key] = None.
Proof.
  induction keys as [|key keys IH]; [intros _ k []|].
  cbn [first_total].
  destruct (found (extract_amount_smart lines [key])) as [w|] eqn:E; [discriminate|].
  intros H k [<-|Hk]; [|exact (IH H k Hk)].
  destruct (extract_amount_smart lines [key]) as [u|] eqn:Eu; [|reflexivity].
  destruct (extract_parses _ _ _ Eu) as [_ Hne].
  cbn [found] in E. now rewrite (truthy_true u Hne) in E.
Qed.

(** Keywords that agree up to letter case select the same lines. *)
Lemma amount_loop_keywords (lines kws kws' : list string) :
  List.map lower kws = List.map lower kws' ->
  forall todo i, amount_loop lines kws i todo = amount_loop lines kws' i todo.
Proof.
  intros E.
  assert (K : forall line, has_keyword kws line = has_keyword kws' line).
  { intros line. unfold has_keyword. revert kws' E.
    induction kws as [|k kws IH]; intros [|k' kws'] E; try discriminate E;
      [reflexivity|].
    cbn [List.map] in E. injection E as Ek E.
    cbn [existsb]. now rewrite Ek, (IH kws' E). }
  induction todo as [|line todo IH]; intros i; [reflexivity|].
  cbn [amount_loop]. rewrite K, !IH. reflexivity.
Qed.

End RecordFacts.

(** X23.  A record [_parse_deep_fields] builds has exactly ten keys, the
    nine fields and [vendor], and [vendor] repeats the vendor name. *)
Theorem parse_deep_fields_keys (text : string) :
  let data := Core._parse_deep_fields text in
  (forall key, is_Some (data !! key) <-> key ∈ field_names ++ ["vendor"])
  /\ data !! "vendor" = data !! "vendor_name".
Proof.
  cbv zeta. split.
  - intros key. split.
    + intros [v Hv].
      destruct (decide (key ∈ field_names ++ ["vendor"])) as [I|N]; [exact I|].
      rewrite (parse_other_absent text key N) in Hv. discriminate Hv.
    + intros I. apply elem_of_app in I as [I|I].
      * pose proof (fields_present text) as P.
        rewrite List.Forall_forall in P. apply P. now apply list_elem_of_In.
      * apply list_elem_of_singleton in I as ->.
        unfold Core._parse_deep_fields. cbv zeta.
        rewrite lookup_insert. eauto.
  - pose proof (vendor_name_value text) as V.
    unfold Core._parse_deep_fields in *. cbv zeta in *.
    rewrite lookup_insert_ne in V by discriminate.
    rewrite lookup_insert.
    rewrite lookup_insert_ne by discriminate. rewrite V.
    now rewrite (lookup_total_of_lookup _ _ _ V).
Qed.

(** X24.  The labels of the grand total are tried in the order Grand
    Total, TOTAL AMOUNT, Amount Payable, Invoice Total, each over all the
    lines: the value is that of the first label which gives one, wherever
    its line stands, and no label gives one when the total is not found. *)
Theorem total_label_priority (text : string) :
  let lines := Core.split_lines text in
  (forall v, total_found text = Some v ->
     exists i key,
       Core.total_labels !! i = Some key
       /\ Core.extract_amount_smart lines [key] = Some v
       /\ forall j kj, j < i -> Core.total_labels !! j = Some kj ->
            Core.extract_amount_smart lines [kj] = None)
  /\ (total_found text = None ->
      forall key, In key Core.total_labels ->
        Core.extract_amount_smart lines [key] = None).
Proof.
  cbv zeta. split.
  - intros v. apply first_total_priority.
  - apply first_total_none.
Qed.

Lemma total_label_priority_witness :
  (exists i key,
     Core.total_labels !! i = Some key
     /\ Core.extract_amount_smart
          (Core.split_lines (unlines ["Invoice Total 5.00"; "Grand Total 9.00"])) [key]
        = Some "9.00"
     /\ forall j kj, j < i -> Core.total_labels !! j = Some kj ->
          Core.extract_amount_smart
            (Core.split_lines (unlines ["Invoice Total 5.00"; "Grand Total 9.00"])) [kj]
          = None)
  /\ (forall key, In key Core.total_labels ->
        Core.extract_amount_smart (Core.split_lines "Acme Corp") [key] = None).
Proof.
  split.
  - apply (proj1 (total_label_priority
                    (unlines ["Invoice Total 5.00"; "Grand Total 9.00"]))).
    reflexivity.
  - apply (proj2 (total_label_priority "Acme Corp")). reflexivity.
Defined.

(** X25.  The letter case of the label keywords does not matter: two
    lists of keywords that agree up to case give the same result. *)
Theorem extract_amount_smart_keyword_case (lines kws kws' : list string) :
  List.map Py.lower kws = List.map Py.lower kws' ->
  Core.extract_amount_smart lines kws = Core.extract_amount_smart lines kws'.
Proof. intros E. now apply amount_loop_keywords. Qed.

Lemma extract_amount_smart_keyword_case_witness :
  Core.extract_amount_smart ["Cgst 9.00"] ["CGST"]
  = Core.extract_amount_smart ["Cgst 9.00"] ["cgst"].
Proof.
  apply (extract_amount_smart_keyword_case ["Cgst 9.00"] ["CGST"] ["cgst"]).
  reflexivity.
Defined.

(** X26.  The encrypted column of the row [save_invoice] inserts decrypts
    to the serialized record, whatever IV the cipher drew. *)
Theorem save_invoice_blob_decrypts (json_dumps : gmap string string -> string)
    (F : Security.fernet) (e : Security.entropy F) (now : string)
    (d : Storage.db) (filename h : string) (data : gmap string string) :
  Storage.hash_present h d = false ->
  Security.utf8_valid (json_dumps data) = true ->
  exists r,
    Storage.save_invoice json_dumps F e now d filename h data
    = (true, Storage.Db (Storage.rows d ++ [r]) (S (Storage.last_id d)))
    /\ fst (Security.decrypt_data F (Storage.json_data_enc r)) = json_dumps data.
Proof.
  intros Hh Hv. unfold Storage.save_invoice. cbv zeta. rewrite Hh.
  eexists. split; [reflexivity|]. cbn [Storage.json_data_enc].
  now apply decrypt_encrypt_data.
Qed.

Lemma save_invoice_blob_decrypts_witness :
  exists r,
    example_save Storage.empty_db "a.pdf" "9f86d0" Core.defaults
    = (true, Storage.Db ([] ++ [r]) 1)
    /\ fst (Security.decrypt_data marked_cipher (Storage.json_data_enc r)) = "{}".
Proof.
  apply (save_invoice_blob_decrypts example_dumps marked_cipher tt
           "2024-01-01 10:00" Storage.empty_db "a.pdf" "9f86d0" Core.defaults);
    reflexivity.
Defined.
